(** * Crowd-safety backend: the state-keeping and risk-inference engine

    A shallow embedding of [backend/app/logic.py] (with the records of
    [backend/app/schemas.py]) and the properties of its two entry points,
    [process_new_data] (write) and [get_system_status] (read).

    Modelling choices.
    - Python [int] is [Z]; Python [float] and NumPy [float64] are the
      kernel's binary64 numbers ([PrimFloat.float]), so every comparison
      against the thresholds [0.8] and [0.5] is the IEEE comparison the
      interpreter performs on the same bit patterns.
    - The two module-level dictionaries [current_counts] and
      [density_history] are finite maps inside an explicit [World]; the
      functions of the module are computations in a state-and-exception
      monad over that world.
    - [datetime.utcnow()] reads a clock that belongs to the world: an
      oracle of successive readings and the number of readings consumed.
    - The module-level [model] is assigned once at import time; it is a
      parameter [option Model] of the functions that read it.  A model is
      a function from the previous count to the predicted count, which may
      raise.
    - NumPy integer arrays are lists of [Z]: [np.diff] subtracts in [Z],
      which is what int64 arithmetic gives as long as no difference leaves
      the int64 range (counts in [0, 2^63) never do).  Counts beyond int64,
      for which NumPy picks another array type and [int / float] can raise
      [OverflowError], are outside the embedding: the arithmetic below is
      that of the code for counts that satisfy [count_in_range], and every
      statement that depends on the value of a difference, of a mean or of
      a converted count carries that hypothesis. *)

From Stdlib Require Import ZArith List Floats Lia.
From stdpp Require Import gmap strings list.

Set Warnings "-inexact-float".
Set Warnings "-abstract-large-number".

Local Open Scope Z_scope.

(** ** Python built-ins used by the module *)

Module Py.

(** [float(n)] for an [int] [n]: the correctly rounded binary64 (round to
    nearest, ties to even).  Python raises [OverflowError] where the
    rounded value would be infinite (from about 2^1024 on); that is never
    the case for a count in [count_in_range]. *)
Definition float_of_int (n : Z) : float :=
  SF2Prim (binary_normalize prec emax n 0 false).

(** [n / d] with [n : int] and [d : float]: the integer is converted first. *)
Definition truediv_int (n : Z) (d : float) : float :=
  (float_of_int n / d)%float.

(** [min(a, b)]: keeps [a] unless [b < a]. *)
Definition min (a b : float) : float :=
  if (b <? a)%float then b else a.

(** [max(a, b)]: keeps [a] unless [b > a]. *)
Definition max (a b : float) : float :=
  if (a <? b)%float then b else a.

(** [l[-k:]] for a positive literal [k]: the last [k] items, the whole list
    when it is shorter. *)
Definition slice_last {A : Type} (k : nat) (l : list A) : list A :=
  drop (length l - k)%nat l.

(** [l[-1]] on a list known to be non-empty. *)
Definition last_item (l : list Z) : Z := List.last l 0.

End Py.

(** ** The two NumPy routines used by the module *)

Module Np.

(** [np.diff(a)]: [a[i+1] - a[i]].  NumPy subtracts in the integer type of
    the array and wraps; for entries in [count_in_range] the array is int64
    and no difference leaves it, so the difference in [Z] is the one NumPy
    computes. *)
Fixpoint diff (a : list Z) : list Z :=
  match a with
  | x :: (y :: _) as t => (y - x) :: diff t
  | _ => []
  end.

(** The float64 sum of an integer array: every entry is converted and the
    entries are added from left to right. *)
Definition sum (a : list Z) : float :=
  match a with
  | [] => 0%float
  | x :: t =>
      fold_left (fun acc y => (acc + Py.float_of_int y)%float) t (Py.float_of_int x)
  end.

(** [np.mean(a)] of an int64 array: the float64 sum over the length. *)
Definition mean (a : list Z) : float :=
  (sum a / Py.float_of_int (Z.of_nat (length a)))%float.

End Np.

(** ** schemas.py *)

Record CameraData := mkCameraData { count : Z }.

Record IngestData := mkIngestData {
  source_id : string;
  source_type : string;
  ingest_timestamp : Z;
  data : CameraData
}.

Record ZoneStatus := mkZoneStatus {
  zone_id : string;
  display_name : string;
  density : float;
  risk_level : string;
  predicted_risk_level : string;
  trend : string
}.

Record Alert := mkAlert {
  alert_id : string;
  alert_timestamp : Z;
  alert_zone_id : string;
  title : string;
  message : string
}.

Record SystemStatus := mkSystemStatus {
  zones : list ZoneStatus;
  alerts : list Alert
}.

(** ** The world: in-memory storage and the clock *)

Record Clock := mkClock {
  readings : nat -> Z;
  position : nat
}.

Record World := mkWorld {
  current_counts : gmap string Z;
  density_history : gmap string (list Z);
  clock : Clock
}.

Definition MAX_HISTORY : nat := 10.

Inductive Exception :=
| KeyError (key : string)
| ModelError (code : Z).

Inductive Result (A : Type) :=
| Ok (a : A)
| Raise (e : Exception).

Arguments Ok {A} a.
Arguments Raise {A} e.

(** The external regression model: [model.predict([[prev_count]])[0]]. *)
Definition Model := Z -> Result float.

(** ** State-and-exception monad *)

Definition M (A : Type) : Type := World -> Result A * World.

Definition ret {A : Type} (a : A) : M A := fun w => (Ok a, w).

Definition bind {A B : Type} (c : M A) (k : A -> M B) : M B :=
  fun w =>
    match c w with
    | (Ok a, w') => k a w'
    | (Raise e, w') => (Raise e, w')
    end.

Definition gets {A : Type} (f : World -> A) : M A := fun w => (Ok (f w), w).

Definition lift {A : Type} (r : Result A) : M A := fun w => (r, w).

Declare Scope py_scope.
Delimit Scope py_scope with py.
Notation "x <- c ;; k" := (bind c (fun x => k))
  (at level 100, c at next level, right associativity) : py_scope.
Notation "c ;; k" := (bind c (fun _ => k))
  (at level 100, right associativity) : py_scope.
Local Open Scope py_scope.

(** [current_counts[source] = count] *)
Definition counts_setitem (source : string) (c : Z) : M unit :=
  fun w => (Ok tt, mkWorld (<[source := c]> (current_counts w)) (density_history w) (clock w)).

(** [current_counts.get(source, 0)] *)
Definition counts_get (source : string) (dflt : Z) : M Z :=
  gets (fun w => default dflt (current_counts w !! source)).

(** [source in density_history] *)
Definition history_contains (source : string) : M bool :=
  gets (fun w => bool_decide (is_Some (density_history w !! source))).

(** [density_history[source]] as an expression: [KeyError] when absent. *)
Definition history_getitem (source : string) : M (list Z) :=
  fun w =>
    match density_history w !! source with
    | Some h => (Ok h, w)
    | None => (Raise (KeyError source), w)
    end.

(** [density_history[source] = h] *)
Definition history_setitem (source : string) (h : list Z) : M unit :=
  fun w => (Ok tt, mkWorld (current_counts w) (<[source := h]> (density_history w)) (clock w)).

(** [density_history.get(source)] *)
Definition history_get (source : string) : M (option (list Z)) :=
  gets (fun w => density_history w !! source).

(** [density_history.get(source, [])] *)
Definition history_get_default (source : string) : M (list Z) :=
  gets (fun w => default [] (density_history w !! source)).

(** [datetime.utcnow()]: the next reading of the clock. *)
Definition utcnow : M Z :=
  fun w =>
    let c := clock w in
    (Ok (readings c (position c)),
     mkWorld (current_counts w) (density_history w) (mkClock (readings c) (S (position c)))).

(** ** logic.py *)

Definition process_new_data (data0 : IngestData) : M unit :=
  let source := source_id data0 in
  let count0 := count (data data0) in
  counts_setitem source count0 ;;
  present <- history_contains source ;;
  (if negb present then history_setitem source [] else ret tt) ;;
  h <- history_getitem source ;;
  history_setitem source (h ++ [count0]) ;;
  h1 <- history_getitem source ;;
  if (MAX_HISTORY <? length h1)%nat then
    h2 <- history_getitem source ;;
    history_setitem source (Py.slice_last MAX_HISTORY h2)
  else ret tt.

(** [model and zone_id == "cam_01"]: the model, when it is loaded and the
    zone is the one it serves. *)
Definition model_for (model : option Model) (zone : string) : option Model :=
  match model with
  | Some m => if String.eqb zone "cam_01" then Some m else None
  | None => None
  end.

Definition predict_future_risk (model : option Model) (zone : string) (density0 : float)
  : M string :=
  predicted <-
    (match model_for model zone with
     | Some m =>
         truthy <- history_get zone ;;
         prev_count <-
           (match truthy with
            | Some (_ :: _) => h <- history_get_default zone ;; ret (Py.last_item h)
            | _ => ret 0
            end) ;;
         predicted_count <- lift (m prev_count) ;;
         ret (Some (Py.min (Py.max (predicted_count / 200)%float 0%float) 1%float))
     | None =>
         history <- history_get_default zone ;;
         if (length history <? 3)%nat then ret None
         else
           let recent_trend := Np.mean (Np.diff (Py.slice_last 3 history)) in
           ret (Some (Py.min (Py.max (density0 + recent_trend / 200)%float 0%float) 1%float))
     end) ;;
  match predicted with
  | None => ret "low"%string
  | Some predicted_density =>
      if (0.8 <? predicted_density)%float then ret "high"%string
      else if (0.5 <? predicted_density)%float then ret "medium"%string
      else ret "low"%string
  end.

(** The nested [get_risk] of [get_system_status]. *)
Definition get_risk (d : float) : string :=
  if (0.8 <? d)%float then "high"
  else if (0.5 <? d)%float then "medium"
  else "low".

(** The nested [get_trend] of [get_system_status]; it reads the global
    [density_history]. *)
Definition get_trend (source : string) : M string :=
  hist <- history_get_default source ;;
  if (length hist <? 3)%nat then ret "stable"%string
  else
    let diff := Np.mean (Np.diff (Py.slice_last 3 hist)) in
    if (2 <? diff)%float then ret "up"%string
    else if (diff <? -2)%float then ret "down"%string
    else ret "stable"%string.

Definition get_system_status (model : option Model) : M SystemStatus :=
  gate_a_count <- counts_get "cam_01" 0 ;;
  stage_count <- counts_get "cam_02" 0 ;;
  let density_a := Py.min (Py.truediv_int gate_a_count 200) 1 in
  let density_b := Py.min (Py.truediv_int stage_count 200) 1 in
  predicted_risk_a <- predict_future_risk model "cam_01" density_a ;;
  predicted_risk_b <- predict_future_risk model "cam_02" density_b ;;
  trend_a <- get_trend "cam_01" ;;
  let zone1 :=
    mkZoneStatus "gate_a" "Main Gate A" density_a (get_risk density_a)
      predicted_risk_a trend_a in
  trend_b <- get_trend "cam_02" ;;
  let zone2 :=
    mkZoneStatus "stage_front" "Stage Front" density_b (get_risk density_b)
      predicted_risk_b trend_b in
  alerts1 <-
    (if String.eqb (risk_level zone1) "high" then
       now <- utcnow ;;
       ret [mkAlert "alert_1" now "gate_a" "⚠️ High Risk at Main Gate A"
              "Crowd density critical. Please redirect flow."]
     else ret []) ;;
  alerts2 <-
    (if String.eqb (risk_level zone2) "high" then
       now <- utcnow ;;
       ret (alerts1 ++ [mkAlert "alert_2" now "stage_front" "⚠️ High Risk at Stage Front"
              "High density detected. Manage access routes."])
     else ret alerts1) ;;
  ret (mkSystemStatus [zone1; zone2] alerts2).

(** ** Running the engine *)

(** The store of a freshly imported module, with a given clock. *)
Definition initial_world (c : Clock) : World := mkWorld ∅ ∅ c.

(** A camera reading as the transport delivers it. *)
Definition reading (source : string) (c : Z) : IngestData :=
  mkIngestData source "camera" 0 (mkCameraData c).

(** The world after a sequence of ingestion requests, in arrival order. *)
Definition ingest_all (ds : list IngestData) (w : World) : World :=
  fold_left (fun w0 d => snd (process_new_data d w0)) ds w.

(** The history window of a source as a reader sees it. *)
Definition window (w : World) (source : string) : list Z :=
  default [] (density_history w !! source).

(** ** The range in which the arithmetic is the code's *)

(** A count whose differences with other such counts fit the int64 type of
    a NumPy array, and which converts to a float without overflow. *)
Definition count_in_range (x : Z) : Prop := - 2 ^ 62 <= x < 2 ^ 62.

(** Everything the store holds about a source is in range. *)
Definition source_in_range (w : World) (source : string) : Prop :=
  count_in_range (default 0 (current_counts w !! source)) /\
  Forall count_in_range (window w source).

(** ** Vocabulary of the properties *)

(** [min(max(x, 0.0), 1.0)], the clamp both prediction branches apply. *)
Definition clamp01 (x : float) : float := Py.min (Py.max x 0) 1.

(** The order low < medium < high on the labels. *)
Definition risk_rank (r : string) : nat :=
  if String.eqb r "high" then 2
  else if String.eqb r "medium" then 1
  else 0.

(** The counts a sequence of requests carries for one source, in arrival
    order. *)
Definition counts_for (source : string) (ds : list IngestData) : list Z :=
  map (fun d => count (data d))
    (List.filter (fun d => String.eqb (source_id d) source) ds).

(** The most recent recorded count of a source, 0 when there is none. *)
Definition prev_count (w : World) (source : string) : Z :=
  List.last (window w source) 0.

(** The mean of the two consecutive first differences of three entries, as
    float64 arithmetic computes it. *)
Definition trend_delta (a b c : Z) : float :=
  ((Py.float_of_int (b - a) + Py.float_of_int (c - b)) / 2)%float.

(** The trend-based prediction as a function of the window and the
    current density. *)
Definition trend_prediction (h : list Z) (d : float) : string :=
  if (length h <? 3)%nat then "low"
  else get_risk (clamp01 (d + Np.mean (Np.diff (Py.slice_last 3 h)) / 200)%float).

(** The trend label as a function of the window. *)
Definition trend_label (h : list Z) : string :=
  if (length h <? 3)%nat then "stable"
  else
    let diff := Np.mean (Np.diff (Py.slice_last 3 h)) in
    if (2 <? diff)%float then "up"
    else if (diff <? -2)%float then "down"
    else "stable".

(** The prediction for [cam_01], as a function of the window. *)
Definition cam_01_prediction (model : option Model) (h : list Z) (d : float) : Result string :=
  match model with
  | Some m =>
      match m (List.last h 0) with
      | Ok predicted_count => Ok (get_risk (clamp01 (predicted_count / 200)%float))
      | Raise e => Raise e
      end
  | None => Ok (trend_prediction h d)
  end.

(** The fixed alert id of each configured zone. *)
Definition zone_alert_id (zone : string) : string :=
  if String.eqb zone "gate_a" then "alert_1"
  else if String.eqb zone "stage_front" then "alert_2"
  else "".

(** A status with the timestamps of its alerts blanked. *)
Definition untimed (st : SystemStatus) : SystemStatus :=
  mkSystemStatus (zones st)
    (map (fun a => mkAlert (alert_id a) 0 (alert_zone_id a) (title a) (message a))
       (alerts st)).

Definition result_map {A B : Type} (f : A -> B) (r : Result A) : Result B :=
  match r with
  | Ok a => Ok (f a)
  | Raise e => Raise e
  end.

(** The density of a source as [get_system_status] computes it. *)
Definition source_density (w : World) (source : string) : float :=
  Py.min (Py.truediv_int (default 0 (current_counts w !! source)) 200) 1.

(** The two alerts [get_system_status] can raise, at a given clock reading. *)
Definition gate_a_alert (now : Z) : Alert :=
  mkAlert "alert_1" now "gate_a" "⚠️ High Risk at Main Gate A"
    "Crowd density critical. Please redirect flow.".

Definition stage_front_alert (now : Z) : Alert :=
  mkAlert "alert_2" now "stage_front" "⚠️ High Risk at Stage Front"
    "High density detected. Manage access routes.".

(** The clock after [n] more readings. *)
Definition advance (c : Clock) (n : nat) : Clock :=
  mkClock (readings c) (position c + n).

Definition is_high (r : string) : bool := String.eqb r "high".

(** ** Sample worlds and models *)

Definition still_clock : Clock := mkClock (fun _ => 0) 0.

Definition ticking_clock : Clock := mkClock (fun n => Z.of_nat n) 0.

(** A model whose [predict] raises. *)
Definition failing_model : Model := fun _ => Raise (ModelError 1).

(** The model of [create_dummy_model.py]: a line through (50, 100),
    (100, 200), (150, 300). *)
Definition doubling_model : Model := fun n => Ok (Py.float_of_int (2 * n)).

(** Scenario B: four readings of [cam_01] into a fresh store. *)
Definition scenario_b (c : Clock) : World :=
  ingest_all (map (reading "cam_01") [100; 150; 220; 260]) (initial_world c).

(** ** main.py: the two endpoints *)

(** The JSON object [{"status": ..., "source_id": ...}] of the ingest
    endpoint. *)
Record IngestAck := mkIngestAck {
  ack_status : string;
  ack_source_id : string
}.

(** [POST /api/ingest] *)
Definition post_ingest_data (data0 : IngestData) : M IngestAck :=
  process_new_data data0 ;;
  ret (mkIngestAck "ok" (source_id data0)).

(** [GET /api/status] *)
Definition get_status (model : option Model) : M SystemStatus :=
  get_system_status model.

(** ** dashboard_app.py: what the dashboard does with a status *)

Module Dashboard.

Definition MAX_HISTORY : nat := 50.

(** One point [{"time": ..., "density": ...}] of a zone's chart. *)
Record TrendPoint := mkTrendPoint {
  time : string;
  point_density : float
}.

(** [update_trend(zone_id, density)] on [st.session_state.history]; [now]
    is the string [datetime.now().strftime("%H:%M:%S")] it reads.  The
    subscript reads find the key, which the first statement has put there. *)
Definition update_trend (now : string) (zone : string) (d : float)
    (history : gmap string (list TrendPoint)) : gmap string (list TrendPoint) :=
  let history1 :=
    if bool_decide (is_Some (history !! zone)) then history else <[zone := []]> history in
  let history2 :=
    <[zone := default [] (history1 !! zone) ++ [mkTrendPoint now d]]> history1 in
  if (MAX_HISTORY <? length (default [] (history2 !! zone)))%nat then
    <[zone := Py.slice_last MAX_HISTORY (default [] (history2 !! zone))]> history2
  else history2.

(** [threshold_float = density_threshold / 100.0], from the slider. *)
Definition threshold_float (density_threshold : Z) : float :=
  Py.truediv_int density_threshold 100.

(** The risk shown on a zone card: [current_risk] of the card loop. *)
Definition card_risk (density_threshold : Z) (d : float) : string :=
  if (threshold_float density_threshold <=? d)%float then "high"
  else if (threshold_float density_threshold / 2 <? d)%float then "medium"
  else "low".

(** The toast step of the refresh loop: the texts toasted for a status
    and the new [last_alert_count]. *)
Definition toast_step (served : list Alert) (last_alert_count : Z) : list string * Z :=
  let new_alert_count := Z.of_nat (length served) in
  (if last_alert_count <? new_alert_count
   then map (fun a => ("🚨 ALERT: " ++ title a)%string) served
   else [],
   new_alert_count).

End Dashboard.

(** ** simulator.py: the demo scenario *)

Module Simulator.

(** The generator behind [random]: the raw draws still to come. *)
Record Rng := mkRng {
  draws : nat -> Z;
  drawn : nat
}.

(** [random.randint(a, b)]: [a] plus a draw below [b - a + 1]. *)
Definition randint (a b : Z) (g : Rng) : Z * Rng :=
  (a + draws g (drawn g) mod (b - a + 1), mkRng (draws g) (S (drawn g))).

Inductive ConversionError :=
| ValueError
| OverflowError.

(** [int(f)] for a float: truncation towards zero; NaN and the infinities
    raise. *)
Definition int_of_float (f : float) : ConversionError + Z :=
  match Prim2SF f with
  | S754_zero _ => inr 0
  | S754_finite s m e =>
      let magnitude :=
        if 0 <=? e then Z.pos m * 2 ^ e else Z.pos m / 2 ^ (- e) in
      inr (if s then - magnitude else magnitude)
  | S754_infinity _ => inl OverflowError
  | S754_nan => inl ValueError
  end.

(** [get_crowd_count(simulation_time_sec)] *)
Definition get_crowd_count (simulation_time_sec : float) (g : Rng)
  : (ConversionError + Z * Z) * Rng :=
  let t := simulation_time_sec in
  let gate :=
    if (0 <=? t)%float && (t <? 30)%float then
      let (r, g1) := randint 80 100 g in (inr r, g1)
    else if (30 <=? t)%float && (t <? 60)%float then
      let base_count := (100 + (t - 30) * 5)%float in
      match int_of_float base_count with
      | inl e => (inl e, g)
      | inr n => let (r, g1) := randint (-10) 10 g in (inr (n + r), g1)
      end
    else if (60 <=? t)%float && (t <? 90)%float then
      let (r, g1) := randint 250 300 g in (inr r, g1)
    else
      let base_count := (250 - (t - 90) * 1.1)%float in
      match int_of_float base_count with
      | inl e => (inl e, g)
      | inr n => let (r, g1) := randint (-10) 10 g in (inr (Z.max 150 (n + r)), g1)
      end in
  match gate with
  | (inl e, g1) => (inl e, g1)
  | (inr count_gate_a, g1) =>
      let (count_stage_front, g2) := randint 110 130 g1 in
      (inr (count_gate_a, count_stage_front), g2)
  end.

(** The payload [send_data(source_id, count)] posts. *)
Definition payload (source : string) (c : Z) (now : Z) : IngestData :=
  mkIngestData source "camera" now (mkCameraData c).

(** One turn of [run_simulation] whose two posts reach the backend: the
    counts of the turn are ingested, [cam_01] first. *)
Definition deliver (counts : Z * Z) (now : Z) (w : World) : World :=
  snd (post_ingest_data (payload "cam_02" (snd counts) now)
         (snd (post_ingest_data (payload "cam_01" (fst counts) now) w))).

End Simulator.

(** ** Vocabulary of the further properties *)

(** What the two dictionaries have in common in every state the module
    can reach: a source is in both or in neither, and its window is not
    empty, holds at most [MAX_HISTORY] counts and ends with its latest
    count. *)
Definition store_ok (w : World) : Prop :=
  forall source : string,
    match density_history w !! source with
    | Some h =>
        h <> [] /\ (length h <= MAX_HISTORY)%nat /\
        current_counts w !! source = Some (List.last h 0)
    | None => current_counts w !! source = None
    end.

(** The latest count of a source as [get_system_status] reads it. *)
Definition latest_count (w : World) (source : string) : Z :=
  default 0 (current_counts w !! source).

(** The two sources the status is computed from. *)
Definition monitored (source : string) : bool :=
  String.eqb source "cam_01" || String.eqb source "cam_02".

(** The integers [lo], [lo + 1], ..., [n] of them. *)
Fixpoint Z_range (lo : Z) (n : nat) : list Z :=
  match n with
  | O => []
  | S n' => lo :: Z_range (lo + 1) n'
  end.

(** [min(count / 200.0, 1.0)] *)
Definition density_of_count (c : Z) : float := Py.min (Py.truediv_int c 200) 1.

(** The risk classes as thresholds on the count itself. *)
Definition risk_by_count (c : Z) : string :=
  if 160 <? c then "high" else if 100 <? c then "medium" else "low".

Definition risk_table_ok (c : Z) : bool :=
  String.eqb (get_risk (density_of_count c)) (risk_by_count c).

(** What the density of a count looks like: negative below 0, within
    [0, 1] from 0 on, and 1.0 exactly from 200 on. *)
Definition density_table_ok (c : Z) : bool :=
  let d := density_of_count c in
  if c <? 0 then (d <? 0)%float
  else (0 <=? d)%float && (d <=? 1)%float && Bool.eqb (d =? 1)%float (200 <=? c).

(** The label [get_trend] gives to a delta. *)
Definition delta_label (delta : float) : string :=
  if (2 <? delta)%float then "up"
  else if (delta <? -2)%float then "down"
  else "stable".

(** The trend labels as thresholds on the net change over the last three
    entries. *)
Definition trend_by_counts (net : Z) : string :=
  if 4 <? net then "up" else if net <? -4 then "down" else "stable".

Definition trend_row_ok (lo : Z) (n : nat) (d1 : Z) : bool :=
  forallb
    (fun d2 => String.eqb (delta_label (trend_delta 0 d1 (d1 + d2))) (trend_by_counts (d1 + d2)))
    (Z_range lo n).

(** The card risk at the default slider position, as thresholds on the
    count. *)
Definition card_by_count (c : Z) : string :=
  if 160 <=? c then "high" else if 80 <? c then "medium" else "low".

Definition card_table_ok (c : Z) : bool :=
  String.eqb (Dashboard.card_risk 80 (density_of_count c)) (card_by_count c).

(** The phases of the simulator's story. *)
Definition normal_flow (t : float) : bool := (0 <=? t)%float && (t <? 30)%float.
Definition surge (t : float) : bool := (30 <=? t)%float && (t <? 60)%float.
Definition critical_peak (t : float) : bool := (60 <=? t)%float && (t <? 90)%float.

(** A generator whose raw draws are 0, 1, 2, ... *)
Definition counting_rng : Simulator.Rng := Simulator.mkRng (fun n => Z.of_nat n) 0.

(** The status served for a fresh store once the counts 250 and 111 of a
    turn have arrived, under a clock that stands still. *)
Definition peak_status : SystemStatus :=
  mkSystemStatus
    [mkZoneStatus "gate_a" "Main Gate A" 1 "high" "low" "stable";
     mkZoneStatus "stage_front" "Stage Front" (Py.truediv_int 111 200) "medium" "low" "stable"]
    [gate_a_alert 0].

(** The status served after scenario B and one more reading of 300. *)
Definition after_300_status : SystemStatus :=
  mkSystemStatus
    [mkZoneStatus "gate_a" "Main Gate A" 1 "high" "high" "up";
     mkZoneStatus "stage_front" "Stage Front" 0 "low" "low" "stable"]
    [gate_a_alert 0].

(** * Properties *)

(** ** Slices *)

Lemma slice_last_length {A : Type} (k : nat) (l : list A) :
  length (Py.slice_last k l) = Nat.min k (length l).
Proof. unfold Py.slice_last. rewrite length_drop. lia. Qed.

Lemma slice_last_short {A : Type} (k : nat) (l : list A) :
  (length l <= k)%nat -> Py.slice_last k l = l.
Proof.
  intros Hle. unfold Py.slice_last.
  replace (length l - k)%nat with 0%nat by lia. reflexivity.
Qed.

Lemma slice_last_suffix {A : Type} (k : nat) (l : list A) :
  l = take (length l - k) l ++ Py.slice_last k l.
Proof. unfold Py.slice_last. symmetry. apply take_drop. Qed.

Lemma slice_last_app {A : Type} (k : nat) (l t : list A) :
  (length t <= k)%nat ->
  Py.slice_last k (l ++ t) = Py.slice_last (k - length t) l ++ t.
Proof.
  intros Hle. unfold Py.slice_last.
  rewrite length_app, drop_app.
  replace (length l + length t - k - length l)%nat with 0%nat by lia.
  replace (length l + length t - k)%nat with (length l - (k - length t))%nat by lia.
  reflexivity.
Qed.

Lemma slice_last_idem {A : Type} (j k : nat) (l : list A) :
  (j <= k)%nat -> Py.slice_last j (Py.slice_last k l) = Py.slice_last j l.
Proof.
  intros Hle. unfold Py.slice_last.
  rewrite drop_drop, length_drop. f_equal. lia.
Qed.

Lemma slice_last_snoc {A : Type} (k : nat) (l : list A) (c : A) :
  (0 < k)%nat ->
  Py.slice_last k (Py.slice_last k l ++ [c]) = Py.slice_last k (l ++ [c]).
Proof.
  intros Hk.
  rewrite !slice_last_app by (simpl; lia).
  rewrite slice_last_idem by lia. reflexivity.
Qed.

(** The last three entries of a history that ends in [a; b; c]. *)
Lemma slice_last_3 (pre : list Z) (a b c : Z) :
  Py.slice_last 3 (pre ++ [a; b; c]) = [a; b; c].
Proof.
  rewrite slice_last_app by (simpl; lia). simpl.
  unfold Py.slice_last. rewrite Nat.sub_0_r, drop_all. reflexivity.
Qed.

(** A list of at least three entries ends in three entries. *)
Lemma three_last (h : list Z) :
  (3 <= length h)%nat -> exists pre a b c, h = pre ++ [a; b; c].
Proof.
  intros Hlen.
  pose proof (slice_last_suffix 3 h) as Hs.
  pose proof (slice_last_length 3 h) as Hl.
  rewrite Nat.min_l in Hl by lia.
  destruct (Py.slice_last 3 h) as [|a [|b [|c [|d t]]]]; simpl in Hl; try lia.
  exists (take (length h - 3) h), a, b, c. exact Hs.
Qed.

(** ** Ingestion *)

(** One ingestion, in closed form: the latest count is overwritten and the
    window is the last [MAX_HISTORY] entries of the old window followed by
    the new count.  The call never raises and leaves the clock alone. *)
Lemma process_new_data_run (d : IngestData) (w : World) :
  process_new_data d w =
    (Ok tt,
     mkWorld
       (<[source_id d := count (data d)]> (current_counts w))
       (<[source_id d :=
            Py.slice_last MAX_HISTORY (window w (source_id d) ++ [count (data d)])]>
          (density_history w))
       (clock w)).
Proof.
  destruct w as [cc dh ck]. unfold window; simpl.
  set (s := source_id d). set (c := count (data d)).
  unfold process_new_data, bind, counts_setitem, history_contains, gets,
    history_setitem, history_getitem, ret; simpl.
  fold s c.
  destruct (dh !! s) as [h|] eqn:Hh; simpl.
  - rewrite Hh. simpl. rewrite lookup_insert_eq.
    destruct (MAX_HISTORY <? length (h ++ [c]))%nat eqn:Hlen; simpl.
    + rewrite lookup_insert_eq. simpl. rewrite insert_insert_eq. reflexivity.
    + apply Nat.ltb_ge in Hlen. rewrite slice_last_short by exact Hlen. reflexivity.
  - rewrite lookup_insert_eq. simpl. rewrite lookup_insert_eq. simpl.
    rewrite !insert_insert_eq. reflexivity.
Qed.

Lemma ingest_all_snoc (ds : list IngestData) (d : IngestData) (w : World) :
  ingest_all (ds ++ [d]) w = snd (process_new_data d (ingest_all ds w)).
Proof. unfold ingest_all. rewrite fold_left_app. reflexivity. Qed.

Lemma window_process_new_data (d : IngestData) (w : World) :
  window (snd (process_new_data d w)) (source_id d) =
    Py.slice_last MAX_HISTORY (window w (source_id d) ++ [count (data d)]).
Proof.
  rewrite process_new_data_run. unfold window at 1. simpl.
  rewrite lookup_insert_eq. reflexivity.
Qed.

(** The window of a source after a non-empty sequence of its own readings. *)
Lemma ingest_all_window (source : string) (cs : list Z) (c : Z) (w : World) :
  density_history (ingest_all (map (reading source) (cs ++ [c])) w) !! source =
    Some (Py.slice_last MAX_HISTORY (window w source ++ cs ++ [c])).
Proof.
  revert c. induction cs as [|c' cs IH] using rev_ind; intros c.
  - simpl. unfold ingest_all. simpl. rewrite process_new_data_run. simpl.
    rewrite lookup_insert_eq. reflexivity.
  - rewrite map_app. cbn [map]. rewrite ingest_all_snoc.
    rewrite process_new_data_run. simpl.
    rewrite lookup_insert_eq. f_equal.
    unfold window at 1. rewrite IH. simpl.
    rewrite slice_last_snoc by (unfold MAX_HISTORY; lia).
    rewrite <- !app_assoc. reflexivity.
Qed.

Lemma ingest_all_latest (source : string) (cs : list Z) (c : Z) (w : World) :
  current_counts (ingest_all (map (reading source) (cs ++ [c])) w) !! source = Some c.
Proof.
  rewrite map_app. cbn [map]. rewrite ingest_all_snoc, process_new_data_run. simpl.
  apply lookup_insert_eq.
Qed.

(** Requests for other sources, however many, leave a source alone. *)
Lemma ingest_all_frame (source : string) (ds : list IngestData) (w : World) :
  counts_for source ds = [] ->
  current_counts (ingest_all ds w) !! source = current_counts w !! source /\
  density_history (ingest_all ds w) !! source = density_history w !! source.
Proof.
  induction ds as [|d ds IH] using rev_ind; [split; reflexivity |].
  unfold counts_for. rewrite List.filter_app, map_app. cbn [List.filter].
  destruct (String.eqb_spec (source_id d) source) as [Heq|Hne].
  - intros H. apply app_eq_nil in H. destruct H as [_ H]. discriminate H.
  - cbn [map]. rewrite app_nil_r. intros Hnone.
    destruct (IH Hnone) as [IHc IHh].
    rewrite ingest_all_snoc, process_new_data_run. cbn [snd current_counts density_history].
    rewrite !lookup_insert_ne by congruence. split; assumption.
Qed.

(** The window of a source under interleaved traffic: only its own counts
    matter, and they are kept in arrival order. *)
Lemma ingest_all_interleaved (source : string) (ds : list IngestData) (w : World) :
  window (ingest_all ds w) source =
    match counts_for source ds with
    | [] => window w source
    | _ :: _ => Py.slice_last MAX_HISTORY (window w source ++ counts_for source ds)
    end.
Proof.
  induction ds as [|d ds IH] using rev_ind; [reflexivity |].
  rewrite ingest_all_snoc.
  unfold counts_for in *. rewrite List.filter_app, map_app. cbn [List.filter].
  destruct (String.eqb_spec (source_id d) source) as [Heq|Hne].
  - subst source. rewrite window_process_new_data, IH. cbn [map].
    destruct (map _ (List.filter _ ds)) as [|c0 cs] eqn:Hcs.
    + reflexivity.
    + cbn [app]. rewrite slice_last_snoc by (unfold MAX_HISTORY; lia).
      rewrite <- app_assoc. reflexivity.
  - cbn [map]. rewrite app_nil_r, <- IH.
    rewrite process_new_data_run. unfold window. cbn [snd density_history].
    rewrite lookup_insert_ne by congruence. reflexivity.
Qed.

(** C1. After every ingestion of a sequence of counts for one source (the
    sequence [cs ++ [c]] is any non-empty one, so the statement covers the
    state after each call), the window has at most [MAX_HISTORY] = 10
    entries, it is the tail of the arrival sequence (what was in the window
    before, followed by the ingested counts, in that order) with only the
    oldest entries dropped, and [current_counts[source]] is the count
    ingested last. *)
Theorem window_bound_fifo_latest (source : string) (cs : list Z) (c : Z) (w : World) :
  let arrived := window w source ++ cs ++ [c] in
  let w' := ingest_all (map (reading source) (cs ++ [c])) w in
  MAX_HISTORY = 10%nat /\
  (length (window w' source) <= MAX_HISTORY)%nat /\
  (exists dropped,
      arrived = dropped ++ window w' source /\
      length (window w' source) = Nat.min MAX_HISTORY (length arrived)) /\
  current_counts w' !! source = Some c.
Proof.
  intros arrived w'.
  assert (Hw : window w' source = Py.slice_last MAX_HISTORY arrived).
  { unfold window at 1, w'. rewrite ingest_all_window. reflexivity. }
  rewrite Hw, slice_last_length.
  split; [reflexivity |].
  split; [lia |].
  split.
  - exists (take (length arrived - MAX_HISTORY) arrived).
    split; [apply slice_last_suffix | reflexivity].
  - apply ingest_all_latest.
Qed.

(** C10. An ingestion for one source leaves the latest count and the
    window of every other source as they were. *)
Theorem process_new_data_frame (d : IngestData) (w : World) (other : string) :
  other <> source_id d ->
  current_counts (snd (process_new_data d w)) !! other = current_counts w !! other /\
  density_history (snd (process_new_data d w)) !! other = density_history w !! other.
Proof.
  intros Hne. rewrite process_new_data_run. simpl.
  split; apply lookup_insert_ne; congruence.
Qed.

(** C10 at work: ingesting for [cam_01] leaves [cam_02] alone. *)
Lemma process_new_data_frame_witness :
  let w := ingest_all [reading "cam_02" 120] (initial_world (mkClock (fun _ => 0) 0)) in
  let d := reading "cam_01" 90 in
  current_counts (snd (process_new_data d w)) !! "cam_02"%string = current_counts w !! "cam_02"%string /\
  density_history (snd (process_new_data d w)) !! "cam_02"%string = density_history w !! "cam_02"%string.
Proof.
  apply (process_new_data_frame (reading "cam_01" 90)). simpl. discriminate.
Defined.

(** ** The order on binary64 numbers *)

Ltac sf_cases :=
  repeat match goal with
    | |- context [Z.compare ?a ?b] => destruct (Z.compare_spec a b)
    | |- context [Pos.compare_cont Eq ?a ?b] =>
        change (Pos.compare_cont Eq a b) with (Pos.compare a b);
        destruct (Pos.compare_spec a b)
    end;
  simpl; intros; try congruence; try lia.

Lemma SFltb_SFleb_trans (x y z : spec_float) :
  SFltb x y = true -> SFleb y z = true -> SFltb x z = true.
Proof.
  unfold SFltb, SFleb, SFcompare.
  destruct x as [sx|sx| |sx mx ex], y as [sy|sy| |sy my ey], z as [sz|sz| |sz mz ez];
    try destruct sx; try destruct sy; try destruct sz; simpl;
    try congruence; sf_cases.
Qed.

Lemma SFleb_total (x y : spec_float) :
  SFcompare x y <> None -> SFltb x y = false -> SFleb y x = true.
Proof.
  unfold SFltb, SFleb, SFcompare.
  destruct x as [sx|sx| |sx mx ex], y as [sy|sy| |sy my ey];
    try destruct sx; try destruct sy; simpl;
    try congruence; sf_cases.
Qed.

Lemma SFcompare_not_nan (x y : spec_float) :
  x <> S754_nan -> y <> S754_nan -> SFcompare x y <> None.
Proof.
  destruct x, y; simpl; try congruence; intros;
    repeat match goal with |- context [if ?b then _ else _] => destruct b end;
    congruence.
Qed.

Lemma Prim2SF_not_nan (x : float) : is_nan x = false -> Prim2SF x <> S754_nan.
Proof.
  intros H. unfold is_nan in H. rewrite FloatAxioms.eqb_spec in H.
  unfold SFeqb in H. destruct (Prim2SF x); simpl in H; congruence.
Qed.

(** [x < y] and [y <= z] give [x < z]. *)
Lemma float_ltb_leb_trans (x y z : float) :
  (x <? y)%float = true -> (y <=? z)%float = true -> (x <? z)%float = true.
Proof. rewrite !FloatAxioms.ltb_spec, FloatAxioms.leb_spec. apply SFltb_SFleb_trans. Qed.

(** Two numbers that are not NaN are comparable: not [x < y] gives [y <= x]. *)
Lemma float_leb_total (x y : float) :
  is_nan x = false -> is_nan y = false ->
  (x <? y)%float = false -> (y <=? x)%float = true.
Proof.
  intros Hx Hy. rewrite FloatAxioms.ltb_spec, FloatAxioms.leb_spec.
  apply SFleb_total, SFcompare_not_nan; apply Prim2SF_not_nan; assumption.
Qed.

(** ** Clamping *)

(** A clamped number lies in [[0, 1]], unless it is NaN. *)
Lemma clamp01_range (x : float) :
  is_nan x = false ->
  (0 <=? clamp01 x)%float = true /\ (clamp01 x <=? 1)%float = true.
Proof.
  intros Hx. unfold clamp01, Py.max.
  destruct (x <? 0)%float eqn:Hneg.
  - vm_compute. split; reflexivity.
  - unfold Py.min. destruct (1 <? x)%float eqn:Hbig.
    + vm_compute. split; reflexivity.
    + split; apply float_leb_total; auto.
Qed.

(** ** Risk classification *)

(** C4. [get_risk] is non-decreasing in the density (for the order
    low < medium < high), and at the boundaries: [0.8] is medium, because
    the comparison with [0.8] is strict; [0.50001] is medium; [0.5] is
    low. *)
Theorem get_risk_monotone_boundaries :
  (forall d1 d2 : float,
      (d1 <=? d2)%float = true ->
      (risk_rank (get_risk d1) <= risk_rank (get_risk d2))%nat) /\
  get_risk 0.8 = "medium"%string /\
  get_risk 0.50001 = "medium"%string /\
  get_risk 0.5 = "low"%string.
Proof.
  split; [| repeat split; vm_compute; reflexivity].
  intros d1 d2 Hle. unfold get_risk.
  destruct (0.8 <? d1)%float eqn:H8.
  - rewrite (float_ltb_leb_trans _ _ _ H8 Hle). vm_compute. lia.
  - destruct (0.5 <? d1)%float eqn:H5.
    + rewrite (float_ltb_leb_trans _ _ _ H5 Hle).
      destruct (0.8 <? d2)%float; vm_compute; lia.
    + destruct (0.8 <? d2)%float, (0.5 <? d2)%float; vm_compute; lia.
Qed.

(** C4 at work on the densities 0.45 and 0.9. *)
Lemma get_risk_monotone_boundaries_witness :
  (risk_rank (get_risk 0.45) <= risk_rank (get_risk 0.9))%nat.
Proof.
  apply (proj1 get_risk_monotone_boundaries 0.45%float 0.9%float).
  vm_compute. reflexivity.
Defined.

(** ** The readers *)

Lemma mean_diff_3 (a b c : Z) :
  Np.mean (Np.diff [a; b; c]) = trend_delta a b c.
Proof. reflexivity. Qed.

(** The trend branch of the prediction, in closed form. *)
Lemma predict_trend_branch (model : option Model) (zone : string) (d : float) (w : World) :
  model_for model zone = None ->
  predict_future_risk model zone d w = (Ok (trend_prediction (window w zone) d), w).
Proof.
  intros Hm. unfold predict_future_risk. rewrite Hm.
  unfold trend_prediction, bind, history_get_default, gets, ret, window, get_risk, clamp01.
  simpl.
  destruct (length (default [] (density_history w !! zone)) <? 3)%nat; simpl; [reflexivity |].
  repeat match goal with |- context [if ?b then _ else _] => destruct b end; reflexivity.
Qed.

(** The model branch of the prediction, in closed form. *)
Lemma predict_model_branch (model : option Model) (m : Model) (zone : string) (d : float)
    (w : World) :
  model_for model zone = Some m ->
  predict_future_risk model zone d w =
    (match m (prev_count w zone) with
     | Ok predicted_count => Ok (get_risk (clamp01 (predicted_count / 200)%float))
     | Raise e => Raise e
     end, w).
Proof.
  intros Hm. unfold predict_future_risk. rewrite Hm.
  unfold bind, history_get, history_get_default, gets, ret, lift, prev_count, window,
    Py.last_item, get_risk, clamp01.
  cbn -[List.last].
  destruct (density_history w !! zone) as [[|x h]|] eqn:E; cbn -[List.last];
    rewrite ?E; cbn -[List.last];
    try change (List.last [] 0) with 0;
    match goal with |- context [m ?z] => destruct (m z) end; cbn -[List.last];
    try reflexivity;
    repeat match goal with |- context [if ?b then _ else _] => destruct b end; reflexivity.
Qed.

(** [get_trend] in closed form. *)
Lemma get_trend_run (source : string) (w : World) :
  get_trend source w = (Ok (trend_label (window w source)), w).
Proof.
  unfold get_trend, trend_label, bind, history_get_default, gets, ret, window. simpl.
  destruct (length (default [] (density_history w !! source)) <? 3)%nat; simpl; [reflexivity |].
  repeat match goal with |- context [if ?b then _ else _] => destruct b end; reflexivity.
Qed.

Lemma model_for_other (model : option Model) (zone : string) :
  model = None \/ zone <> "cam_01"%string -> model_for model zone = None.
Proof.
  intros [-> | Hne]; [reflexivity |].
  unfold model_for. destruct model as [m|]; [| reflexivity].
  destruct (String.eqb_spec zone "cam_01"); [contradiction | reflexivity].
Qed.

(** ** Prediction *)

(** C3. On the branch without the model (no model loaded, or a source
    other than [cam_01]), for a window of counts in range: a history of
    fewer than 3 entries gives ["low"] whatever the density; a history
    that has 3 entries or more ends in some [a; b; c], and the prediction
    is the class ([get_risk], the thresholds of the current risk) of the
    density plus the mean of [b - a] and [c - b] over 200, clamped by
    [min(max(_, 0), 1)], which lies in [0, 1] whenever the sum is a
    number. *)
Theorem predict_fallback_branch (model : option Model) (zone : string) (density0 : float)
    (w : World) :
  model = None \/ zone <> "cam_01"%string ->
  Forall count_in_range (window w zone) ->
  ((length (window w zone) < 3)%nat ->
   predict_future_risk model zone density0 w = (Ok "low"%string, w)) /\
  ((3 <= length (window w zone))%nat ->
   exists pre a b c,
     window w zone = pre ++ [a; b; c] /\
     let predicted := (density0 + trend_delta a b c / 200)%float in
     predict_future_risk model zone density0 w = (Ok (get_risk (clamp01 predicted)), w) /\
     (is_nan predicted = false ->
      (0 <=? clamp01 predicted)%float = true /\ (clamp01 predicted <=? 1)%float = true)).
Proof.
  intros Hbranch _. apply model_for_other in Hbranch.
  rewrite (predict_trend_branch _ _ _ _ Hbranch). unfold trend_prediction.
  split; intros Hlen.
  - apply Nat.ltb_lt in Hlen. rewrite Hlen. reflexivity.
  - destruct (three_last _ Hlen) as (pre & a & b & c & Hw).
    exists pre, a, b, c. split; [exact Hw |].
    apply Nat.ltb_ge in Hlen. rewrite Hlen.
    rewrite Hw, slice_last_3, mean_diff_3.
    split; [reflexivity | apply clamp01_range].
Qed.

Lemma scenario_b_in_range (c : Clock) : source_in_range (scenario_b c) "cam_01".
Proof.
  split.
  - unfold count_in_range. vm_compute. split; [discriminate | reflexivity].
  - change (window (scenario_b c) "cam_01") with [100; 150; 220; 260].
    repeat constructor; unfold count_in_range; vm_compute; try discriminate; reflexivity.
Qed.

(** C3 at work after scenario B, where the window ends in 150, 220, 260
    and the current density is 1.0. *)
Lemma predict_fallback_branch_witness :
  exists pre a b c,
    window (scenario_b still_clock) "cam_01" = pre ++ [a; b; c] /\
    let predicted := (1 + trend_delta a b c / 200)%float in
    predict_future_risk None "cam_01" 1 (scenario_b still_clock)
    = (Ok (get_risk (clamp01 predicted)), scenario_b still_clock) /\
    (is_nan predicted = false ->
     (0 <=? clamp01 predicted)%float = true /\ (clamp01 predicted <=? 1)%float = true).
Proof.
  apply (proj2 (predict_fallback_branch None "cam_01" 1 (scenario_b still_clock)
                  (or_introl eq_refl) (proj2 (scenario_b_in_range still_clock)))).
  vm_compute. lia.
Defined.

(** C7. For a window of counts in range: with fewer than 3 entries the
    trend is ["stable"]; a history of 3 entries or more ends in some
    [a; b; c], the trend delta is the mean of [b - a] and [c - b], and the
    label is ["up"] when the delta is greater than 2, ["down"] when it is
    less than -2, ["stable"] otherwise. *)
Theorem get_trend_label (source : string) (w : World) :
  Forall count_in_range (window w source) ->
  ((length (window w source) < 3)%nat ->
   get_trend source w = (Ok "stable"%string, w)) /\
  ((3 <= length (window w source))%nat ->
   exists pre a b c,
     window w source = pre ++ [a; b; c] /\
     let delta := trend_delta a b c in
     get_trend source w =
       (Ok (if (2 <? delta)%float then "up"%string
            else if (delta <? -2)%float then "down"%string
            else "stable"%string), w)).
Proof.
  intros _. rewrite get_trend_run. unfold trend_label. split; intros Hlen.
  - apply Nat.ltb_lt in Hlen. rewrite Hlen. reflexivity.
  - destruct (three_last _ Hlen) as (pre & a & b & c & Hw).
    exists pre, a, b, c. split; [exact Hw |].
    apply Nat.ltb_ge in Hlen. rewrite Hlen.
    rewrite Hw, slice_last_3, mean_diff_3. reflexivity.
Qed.

(** C7 at work after scenario B, where the window ends in 150, 220, 260. *)
Lemma get_trend_label_witness :
  exists pre a b c,
    window (scenario_b still_clock) "cam_01" = pre ++ [a; b; c] /\
    let delta := trend_delta a b c in
    get_trend "cam_01" (scenario_b still_clock) =
      (Ok (if (2 <? delta)%float then "up"%string
           else if (delta <? -2)%float then "down"%string
           else "stable"%string), scenario_b still_clock).
Proof.
  apply (proj2 (get_trend_label "cam_01" (scenario_b still_clock)
                  (proj2 (scenario_b_in_range still_clock)))).
  vm_compute. lia.
Defined.

(** C6. With a model loaded, a source other than [cam_01] is predicted
    exactly as without a model, whatever the model does; [cam_01] is
    predicted from the model alone: its output on the most recent count,
    over 200, clamped and classified, or the exception it raises. *)
Theorem model_path_isolation (m : Model) (zone : string) (density0 : float) (w : World) :
  (zone <> "cam_01"%string ->
   predict_future_risk (Some m) zone density0 w = predict_future_risk None zone density0 w) /\
  predict_future_risk (Some m) "cam_01" density0 w =
    (match m (prev_count w "cam_01") with
     | Ok predicted_count => Ok (get_risk (clamp01 (predicted_count / 200)%float))
     | Raise e => Raise e
     end, w).
Proof.
  split.
  - intros Hne.
    rewrite !predict_trend_branch by (apply model_for_other; auto). reflexivity.
  - apply predict_model_branch. reflexivity.
Qed.

(** C6 at work: [cam_02] under a model that raises. *)
Lemma model_path_isolation_witness :
  predict_future_risk (Some failing_model) "cam_02" 0.6 (scenario_b still_clock)
  = predict_future_risk None "cam_02" 0.6 (scenario_b still_clock).
Proof.
  apply (proj1 (model_path_isolation failing_model "cam_02" 0.6 (scenario_b still_clock))).
  discriminate.
Defined.

(** With one reading of 100 recorded, the doubling model predicts 200,
    hence density 1.0 and ["high"] for [cam_01], where the trend branch
    says ["low"]; [cam_02] with the same history is ["low"] either way. *)
Example model_path_example :
  let w := ingest_all [reading "cam_01" 100; reading "cam_02" 100] (initial_world still_clock) in
  fst (predict_future_risk (Some doubling_model) "cam_01" 0.5 w) = Ok "high"%string /\
  fst (predict_future_risk None "cam_01" 0.5 w) = Ok "low"%string /\
  fst (predict_future_risk (Some doubling_model) "cam_02" 0.5 w) = Ok "low"%string.
Proof. repeat split; vm_compute; reflexivity. Qed.

(** C5, as the code has it. An exception raised by the model is the
    outcome of the prediction for [cam_01] (the store is left as it was);
    without a model the prediction returns for every source, every density
    and every history of counts in range, of any length, and a history of
    fewer than 3 entries gives ["low"]. *)
Theorem model_failure_propagates (m : Model) (zone : string) (density0 : float) (w : World) :
  (forall e, m (prev_count w "cam_01") = Raise e ->
             predict_future_risk (Some m) "cam_01" density0 w = (Raise e, w)) /\
  (Forall count_in_range (window w zone) ->
   exists r, predict_future_risk None zone density0 w = (Ok r, w)) /\
  ((length (window w zone) < 3)%nat ->
   predict_future_risk None zone density0 w = (Ok "low"%string, w)).
Proof.
  split; [| split].
  - intros e He. rewrite (predict_model_branch (Some m) m) by reflexivity.
    rewrite He. reflexivity.
  - intros _. rewrite predict_trend_branch by reflexivity. eauto.
  - intros Hlen. rewrite predict_trend_branch by reflexivity.
    unfold trend_prediction. apply Nat.ltb_lt in Hlen. rewrite Hlen. reflexivity.
Qed.

(** C5 at work after scenario B: the model's exception comes out, and
    without a model the prediction returns. *)
Lemma model_failure_propagates_witness :
  predict_future_risk (Some failing_model) "cam_01" 0.45 (scenario_b still_clock)
  = (Raise (ModelError 1), scenario_b still_clock) /\
  exists r, predict_future_risk None "cam_01" 0.45 (scenario_b still_clock)
            = (Ok r, scenario_b still_clock).
Proof.
  split.
  - apply (proj1 (model_failure_propagates failing_model "cam_01" 0.45
                    (scenario_b still_clock))).
    reflexivity.
  - apply (proj1 (proj2 (model_failure_propagates failing_model "cam_01" 0.45
                           (scenario_b still_clock)))).
    exact (proj2 (scenario_b_in_range still_clock)).
Defined.

(** C5, as stated, fails: with four readings recorded, the prediction for
    [cam_01] under a failing model is the model's exception, where the
    trend-based prediction is ["high"]. *)
Lemma model_failure_not_absorbed :
  fst (predict_future_risk (Some failing_model) "cam_01" 1 (scenario_b still_clock))
    = Raise (ModelError 1) /\
  fst (predict_future_risk None "cam_01" 1 (scenario_b still_clock)) = Ok "high"%string /\
  ~ (exists r, fst (predict_future_risk (Some failing_model) "cam_01" 1
                      (scenario_b still_clock)) = Ok r).
Proof.
  split; [vm_compute; reflexivity |].
  split; [vm_compute; reflexivity |].
  intros [r Hr]. vm_compute in Hr. discriminate.
Qed.

(** ** The status snapshot *)

(** The prediction for [cam_02] never consults the model. *)
Lemma predict_cam_02 (model : option Model) (d : float) (w : World) :
  predict_future_risk model "cam_02" d w = (Ok (trend_prediction (window w "cam_02") d), w).
Proof. apply predict_trend_branch. destruct model; reflexivity. Qed.

Lemma predict_cam_01 (model : option Model) (d : float) (w : World) :
  predict_future_risk model "cam_01" d w =
    (cam_01_prediction model (window w "cam_01") d, w).
Proof.
  destruct model as [m|].
  - apply (predict_model_branch (Some m) m). reflexivity.
  - apply predict_trend_branch. reflexivity.
Qed.

(** [get_system_status] in closed form: it raises what the prediction for
    [cam_01] raises; otherwise it returns the two zones in order, one alert
    per zone whose current risk is ["high"], each stamped with the next
    clock reading, and only the clock has moved. *)
Lemma get_system_status_run (model : option Model) (w : World) :
  let da := source_density w "cam_01" in
  let db := source_density w "cam_02" in
  let ck := clock w in
  get_system_status model w =
    match cam_01_prediction model (window w "cam_01") da with
    | Raise e => (Raise e, w)
    | Ok pa =>
        let zone1 :=
          mkZoneStatus "gate_a" "Main Gate A" da (get_risk da) pa
            (trend_label (window w "cam_01")) in
        let zone2 :=
          mkZoneStatus "stage_front" "Stage Front" db (get_risk db)
            (trend_prediction (window w "cam_02") db) (trend_label (window w "cam_02")) in
        let n1 := if is_high (get_risk da) then 1%nat else 0%nat in
        let n2 := if is_high (get_risk db) then 1%nat else 0%nat in
        (Ok (mkSystemStatus [zone1; zone2]
               ((if is_high (get_risk da)
                 then [gate_a_alert (readings ck (position ck))] else []) ++
                (if is_high (get_risk db)
                 then [stage_front_alert (readings ck (position ck + n1))] else []))),
         mkWorld (current_counts w) (density_history w) (advance ck (n1 + n2)))
    end.
Proof.
  intros da db ck.
  unfold get_system_status, bind, counts_get, gets, ret. cbn beta iota.
  fold (source_density w "cam_01") (source_density w "cam_02"). fold da db.
  rewrite predict_cam_01.
  destruct (cam_01_prediction model (window w "cam_01") da) as [pa|e]; [| reflexivity].
  rewrite predict_cam_02, !get_trend_run. cbn beta iota.
  unfold is_high, utcnow, advance, ck.
  destruct w as [cc dh [rd pos]].
  cbn [risk_level clock current_counts density_history readings position].
  destruct (String.eqb (get_risk da) "high"), (String.eqb (get_risk db) "high");
    cbn; rewrite ?Nat.add_0_r, ?Nat.add_1_r; try reflexivity.
  replace (pos + 2)%nat with (S (S pos)) by lia. reflexivity.
Qed.

Lemma get_risk_cases (d : float) :
  get_risk d = "high"%string \/ get_risk d = "medium"%string \/ get_risk d = "low"%string.
Proof.
  unfold get_risk. destruct (0.8 <? d)%float, (0.5 <? d)%float; auto.
Qed.

(** C2. For every store whose counts for [cam_01] and [cam_02] are in
    range: whenever the status is returned, its zones are [gate_a] and
    [stage_front] in that order, carrying the current risk of [cam_01] and
    of [cam_02]; the alerts are, in zone order, exactly one alert for every
    zone whose risk is ["high"], with that zone's fixed id and that zone's
    [zone_id], and nothing for a zone that is ["low"] or ["medium"].  The
    status is returned unless the model itself raises. *)
Theorem alerts_follow_high_zones (model : option Model) (w : World) :
  source_in_range w "cam_01" ->
  source_in_range w "cam_02" ->
  match fst (get_system_status model w) with
  | Ok st =>
      map zone_id (zones st) = ["gate_a"; "stage_front"]%string /\
      map risk_level (zones st) =
        [get_risk (source_density w "cam_01"); get_risk (source_density w "cam_02")] /\
      Forall (fun z => risk_level z = "high" \/ risk_level z = "medium" \/ risk_level z = "low")%string
        (zones st) /\
      map (fun a => (alert_id a, alert_zone_id a)) (alerts st) =
        map (fun z => (zone_alert_id (zone_id z), zone_id z))
          (List.filter (fun z => is_high (risk_level z)) (zones st))
  | Raise e => exists m, model = Some m /\ m (prev_count w "cam_01") = Raise e
  end.
Proof.
  intros _ _. rewrite get_system_status_run. unfold cam_01_prediction.
  destruct model as [m|]; [fold (prev_count w "cam_01"); destruct (m _) eqn:Hm |];
    cbn [fst zones alerts map]; eauto;
    (split; [reflexivity |]; split; [reflexivity |]; split;
     [constructor; [apply get_risk_cases |];
      constructor; [apply get_risk_cases | constructor] |]);
    cbn [List.filter risk_level zone_id];
    destruct (is_high (get_risk (source_density w "cam_01"))),
             (is_high (get_risk (source_density w "cam_02"))); reflexivity.
Qed.

Lemma scenario_b_stage_in_range (c : Clock) : source_in_range (scenario_b c) "cam_02".
Proof.
  split.
  - unfold count_in_range. vm_compute. split; [discriminate | reflexivity].
  - change (window (scenario_b c) "cam_02") with (@nil Z). constructor.
Qed.

(** C2 at work after scenario B: one zone at high risk, one alert. *)
Lemma alerts_follow_high_zones_witness :
  match fst (get_system_status None (scenario_b still_clock)) with
  | Ok st =>
      map zone_id (zones st) = ["gate_a"; "stage_front"]%string /\
      map risk_level (zones st) =
        [get_risk (source_density (scenario_b still_clock) "cam_01");
         get_risk (source_density (scenario_b still_clock) "cam_02")] /\
      Forall (fun z => risk_level z = "high" \/ risk_level z = "medium" \/ risk_level z = "low")%string
        (zones st) /\
      map (fun a => (alert_id a, alert_zone_id a)) (alerts st) =
        map (fun z => (zone_alert_id (zone_id z), zone_id z))
          (List.filter (fun z => is_high (risk_level z)) (zones st))
  | Raise e =>
      exists m : Model,
        @None Model = Some m /\ m (prev_count (scenario_b still_clock) "cam_01") = Raise e
  end.
Proof.
  exact (alerts_follow_high_zones None (scenario_b still_clock)
           (scenario_b_in_range still_clock) (scenario_b_stage_in_range still_clock)).
Defined.

(** ** Reading twice *)

Lemma get_system_status_store (model : option Model) (w : World) :
  current_counts (snd (get_system_status model w)) = current_counts w /\
  density_history (snd (get_system_status model w)) = density_history w.
Proof.
  rewrite get_system_status_run.
  destruct (cam_01_prediction _ _ _); split; reflexivity.
Qed.

Lemma untimed_alerts (b1 b2 : bool) (t1 t2 t1' t2' : Z) :
  map (fun a => mkAlert (alert_id a) 0 (alert_zone_id a) (title a) (message a))
    ((if b1 then [gate_a_alert t1] else []) ++ (if b2 then [stage_front_alert t2] else [])) =
  map (fun a => mkAlert (alert_id a) 0 (alert_zone_id a) (title a) (message a))
    ((if b1 then [gate_a_alert t1'] else []) ++ (if b2 then [stage_front_alert t2'] else [])).
Proof. destruct b1, b2; reflexivity. Qed.

(** Two worlds with the same store give the same status up to the
    timestamps of the alerts. *)
Lemma get_system_status_untimed (model : option Model) (w w' : World) :
  current_counts w = current_counts w' ->
  density_history w = density_history w' ->
  result_map untimed (fst (get_system_status model w)) =
  result_map untimed (fst (get_system_status model w')).
Proof.
  intros Hc Hh. rewrite !get_system_status_run.
  unfold source_density, window. rewrite Hc, Hh.
  destruct (cam_01_prediction _ _ _); [| reflexivity].
  cbn [fst result_map]. unfold untimed. cbn [zones alerts].
  f_equal. f_equal. apply untimed_alerts.
Qed.

(** Without alerts the status does not depend on the clock at all. *)
Lemma get_system_status_no_alert (model : option Model) (w w' : World) (st : SystemStatus) :
  current_counts w = current_counts w' ->
  density_history w = density_history w' ->
  fst (get_system_status model w) = Ok st ->
  alerts st = [] ->
  fst (get_system_status model w') = Ok st.
Proof.
  intros Hc Hh. rewrite !get_system_status_run.
  unfold source_density, window. rewrite Hc, Hh.
  destruct (cam_01_prediction _ _ _); [| discriminate].
  cbn [fst]. intros Hst Hal. injection Hst as <-. cbn [alerts] in Hal. revert Hal.
  destruct (is_high _), (is_high _); try discriminate. reflexivity.
Qed.

(** C8, as the code has it. A status read leaves [current_counts] and
    [density_history] as they were, and a second read with no ingestion in
    between returns the same zones and the same alerts except for their
    timestamps, which are clock readings taken during each call; when the
    first status carries no alert the two outcomes are identical. *)
Theorem status_read_repeatable (model : option Model) (w : World) :
  let first := get_system_status model w in
  let second := get_system_status model (snd first) in
  (current_counts (snd first) = current_counts w /\
   density_history (snd first) = density_history w) /\
  (current_counts (snd second) = current_counts w /\
   density_history (snd second) = density_history w) /\
  result_map untimed (fst second) = result_map untimed (fst first) /\
  (forall st, fst first = Ok st -> alerts st = [] -> fst second = fst first).
Proof.
  intros first second.
  destruct (get_system_status_store model w) as [Hc Hh].
  destruct (get_system_status_store model (snd first)) as [Hc' Hh'].
  fold first in Hc, Hh. fold second in Hc', Hh'.
  split; [split; assumption |].
  split; [split; congruence |].
  split.
  - apply get_system_status_untimed; assumption.
  - intros st Hst Hal. rewrite Hst.
    apply (get_system_status_no_alert model w (snd first)); auto.
Qed.

(** C8 at work: two reads of a fresh store. *)
Lemma status_read_repeatable_witness :
  fst (get_system_status None (snd (get_system_status None (initial_world ticking_clock))))
  = fst (get_system_status None (initial_world ticking_clock)).
Proof.
  apply (proj2 (proj2 (proj2 (status_read_repeatable None (initial_world ticking_clock))))
           (mkSystemStatus
              [mkZoneStatus "gate_a" "Main Gate A" 0 "low" "low" "stable";
               mkZoneStatus "stage_front" "Stage Front" 0 "low" "low" "stable"] [])).
  - vm_compute. reflexivity.
  - reflexivity.
Defined.

(** C8, as stated, fails: after scenario B (one zone at high risk) two
    reads in a row, under a clock that ticks between its readings, return
    different statuses. *)
Lemma status_read_not_identical :
  let first := get_system_status None (scenario_b ticking_clock) in
  let second := get_system_status None (snd first) in
  fst first <> fst second /\
  (exists st1 st2,
      fst first = Ok st1 /\ fst second = Ok st2 /\
      map alert_timestamp (alerts st1) = [0] /\
      map alert_timestamp (alerts st2) = [1]).
Proof.
  split.
  - vm_compute. intros H. discriminate H.
  - eexists _, _. vm_compute. repeat split; reflexivity.
Qed.

(** ** End to end *)

(** C9. From an empty store and without a model, after the readings 100,
    150, 220, 260 of [cam_01]: the window holds the four readings, its
    last three entries are 150, 220, 260, their first differences are 70
    and 40, the mean of these, the trend delta, is 55, which is greater
    than 2, and the status gives [gate_a] density 1.0, risk ["high"] and
    trend ["up"], with exactly one alert, whose [zone_id] is ["gate_a"]. *)
Theorem scenario_b_status (c : Clock) :
  window (scenario_b c) "cam_01" = [100; 150; 220; 260] /\
  current_counts (scenario_b c) !! "cam_01"%string = Some 260 /\
  Py.min (Py.truediv_int 260 200) 1 = 1%float /\
  Py.slice_last 3 (window (scenario_b c) "cam_01") = [150; 220; 260] /\
  Np.diff (Py.slice_last 3 (window (scenario_b c) "cam_01")) = [70; 40] /\
  Np.mean (Np.diff (Py.slice_last 3 (window (scenario_b c) "cam_01"))) = 55%float /\
  (2 <? Np.mean (Np.diff (Py.slice_last 3 (window (scenario_b c) "cam_01"))))%float = true /\
  exists gate_a stage_front alert,
    fst (get_system_status None (scenario_b c)) =
      Ok (mkSystemStatus [gate_a; stage_front] [alert]) /\
    zone_id gate_a = "gate_a"%string /\
    density gate_a = 1%float /\
    risk_level gate_a = "high"%string /\
    trend gate_a = "up"%string /\
    alert_zone_id alert = "gate_a"%string.
Proof.
  split; [reflexivity |].
  split; [reflexivity |].
  split; [vm_compute; reflexivity |].
  change (window (scenario_b c) "cam_01") with [100; 150; 220; 260].
  split; [reflexivity |].
  split; [reflexivity |].
  split; [vm_compute; reflexivity |].
  split; [vm_compute; reflexivity |].
  rewrite get_system_status_run.
  do 3 eexists. split; [vm_compute; reflexivity |].
  repeat split; reflexivity.
Qed.

(** * Further properties of the engine *)

(** ** The store invariant *)

Lemma last_slice_last_snoc (k : nat) (l : list Z) (c : Z) :
  (0 < k)%nat -> List.last (Py.slice_last k (l ++ [c])) 0 = c.
Proof.
  intros Hk. rewrite slice_last_app by (simpl; lia). apply last_last.
Qed.

Lemma store_ok_initial (c : Clock) : store_ok (initial_world c).
Proof. intros source. simpl. rewrite !lookup_empty. reflexivity. Qed.

Lemma store_ok_process_new_data (d : IngestData) (w : World) :
  store_ok w -> store_ok (snd (process_new_data d w)).
Proof.
  intros Hok source. rewrite process_new_data_run. cbn [snd density_history current_counts].
  destruct (decide (source_id d = source)) as [<- | Hne].
  - rewrite !lookup_insert_eq. split; [| split].
    + intros H. apply (f_equal (@length Z)) in H.
      rewrite slice_last_length, length_app in H. cbn [length] in H.
      unfold MAX_HISTORY in H. lia.
    + rewrite slice_last_length. lia.
    + rewrite last_slice_last_snoc by (unfold MAX_HISTORY; lia). reflexivity.
  - rewrite !lookup_insert_ne by assumption. apply Hok.
Qed.

Lemma ingest_all_store_ok (ds : list IngestData) (w : World) :
  store_ok w -> store_ok (ingest_all ds w).
Proof.
  intros Hok. induction ds as [|d ds IH] using rev_ind; [exact Hok |].
  rewrite ingest_all_snoc. apply store_ok_process_new_data, IH.
Qed.

(** X1. In every state reached from a fresh store by any sequence of
    ingestions, a source is known to [current_counts] exactly when it is
    known to [density_history], and then its window is non-empty, has at
    most 10 entries, and ends with the count stored in [current_counts]. *)
Theorem store_invariant (ds : list IngestData) (c : Clock) :
  store_ok (ingest_all ds (initial_world c)).
Proof. apply ingest_all_store_ok, store_ok_initial. Qed.

Lemma store_ok_prev_count (w : World) (source : string) :
  store_ok w -> prev_count w source = latest_count w source.
Proof.
  intros Hok. specialize (Hok source). unfold prev_count, latest_count, window.
  destruct (density_history w !! source) as [h|].
  - destruct Hok as (_ & _ & ->). reflexivity.
  - rewrite Hok. reflexivity.
Qed.

(** X2. In every reachable state the "previous count" handed to the model
    and the count the current density is computed from are the same
    number: the model of [cam_01] is asked about the latest reading. *)
Theorem model_sees_latest_count (ds : list IngestData) (c : Clock) (source : string) :
  prev_count (ingest_all ds (initial_world c)) source =
  latest_count (ingest_all ds (initial_world c)) source.
Proof. apply store_ok_prev_count, ingest_all_store_ok, store_ok_initial. Qed.

(** ** Interleaved traffic *)

Lemma ingest_all_latest_interleaved (source : string) (ds : list IngestData) (w : World) :
  current_counts (ingest_all ds w) !! source =
    match counts_for source ds with
    | [] => current_counts w !! source
    | c :: cs => Some (List.last (c :: cs) 0)
    end.
Proof.
  induction ds as [|d ds IH] using rev_ind; [reflexivity |].
  rewrite ingest_all_snoc, process_new_data_run. cbn [snd current_counts].
  unfold counts_for in *. rewrite List.filter_app, map_app. cbn [List.filter].
  destruct (String.eqb_spec (source_id d) source) as [Heq|Hne].
  - subst source. rewrite lookup_insert_eq. cbn [map].
    destruct (map _ (List.filter _ ds)) as [|c0 cs]; [reflexivity |].
    cbn [app]. f_equal. symmetry.
    exact (last_last (c0 :: cs) (count (data d)) 0).
  - cbn [map]. rewrite app_nil_r, lookup_insert_ne by assumption. exact IH.
Qed.

(** X3. Under any interleaving of requests for any sources, what a source
    ends up with depends on its own requests only: if there were none its
    window and latest count are untouched; otherwise the window is the old
    window followed by its own counts in arrival order, cut to the last 10,
    and the latest count is its last own count. *)
Theorem window_under_interleaved_traffic (source : string) (ds : list IngestData) (w : World) :
  match counts_for source ds with
  | [] =>
      window (ingest_all ds w) source = window w source /\
      current_counts (ingest_all ds w) !! source = current_counts w !! source
  | c :: cs =>
      window (ingest_all ds w) source =
        Py.slice_last MAX_HISTORY (window w source ++ c :: cs) /\
      current_counts (ingest_all ds w) !! source = Some (List.last (c :: cs) 0)
  end.
Proof.
  rewrite ingest_all_interleaved, ingest_all_latest_interleaved.
  destruct (counts_for source ds); split; reflexivity.
Qed.

Lemma slice_last_app_long {A : Type} (k : nat) (l t : list A) :
  (k <= length t)%nat -> Py.slice_last k (l ++ t) = Py.slice_last k t.
Proof.
  intros Hle. unfold Py.slice_last. rewrite length_app, drop_app.
  replace (length l + length t - k - length l)%nat with (length t - k)%nat by lia.
  rewrite drop_ge by lia. reflexivity.
Qed.

(** X4. Ten requests are a full reset: once a source has sent at least
    [MAX_HISTORY] counts, its window is exactly its last 10 counts,
    whatever the store held before. *)
Theorem window_forgets_after_ten (source : string) (ds : list IngestData) (w : World) :
  (MAX_HISTORY <= length (counts_for source ds))%nat ->
  window (ingest_all ds w) source = Py.slice_last MAX_HISTORY (counts_for source ds).
Proof.
  intros Hlen. rewrite ingest_all_interleaved.
  destruct (counts_for source ds) as [|c cs] eqn:Hcs.
  - unfold MAX_HISTORY in Hlen. simpl in Hlen. lia.
  - apply slice_last_app_long. exact Hlen.
Qed.

(** X4 at work: eleven readings into a store that already held one. *)
Lemma window_forgets_after_ten_witness :
  window (ingest_all (map (reading "cam_01") [1; 2; 3; 4; 5; 6; 7; 8; 9; 10; 11])
            (ingest_all [reading "cam_01" 99] (initial_world still_clock))) "cam_01"
  = [2; 3; 4; 5; 6; 7; 8; 9; 10; 11].
Proof.
  apply (window_forgets_after_ten "cam_01"
           (map (reading "cam_01") [1; 2; 3; 4; 5; 6; 7; 8; 9; 10; 11])).
  vm_compute. lia.
Defined.

(** ** The endpoints together *)

Lemma post_ingest_data_run (d : IngestData) (w : World) :
  post_ingest_data d w =
    (Ok (mkIngestAck "ok" (source_id d)), snd (process_new_data d w)).
Proof.
  unfold post_ingest_data, bind, ret. rewrite process_new_data_run. reflexivity.
Qed.

(** The status is a function of the clock and of what the store holds for
    [cam_01] and [cam_02]. *)
Lemma get_system_status_agree (model : option Model) (w w' : World) :
  clock w = clock w' ->
  latest_count w "cam_01" = latest_count w' "cam_01" ->
  latest_count w "cam_02" = latest_count w' "cam_02" ->
  window w "cam_01" = window w' "cam_01" ->
  window w "cam_02" = window w' "cam_02" ->
  fst (get_system_status model w) = fst (get_system_status model w').
Proof.
  intros Hck Hc1 Hc2 Hw1 Hw2. rewrite !get_system_status_run.
  unfold source_density. fold (latest_count w "cam_01") (latest_count w "cam_02").
  fold (latest_count w' "cam_01") (latest_count w' "cam_02").
  rewrite Hck, Hc1, Hc2, Hw1, Hw2.
  destruct (cam_01_prediction _ _ _); reflexivity.
Qed.

(** X5. A request for any source other than [cam_01] and [cam_02] is
    accepted and stored, and the status served afterwards is the one that
    would have been served before it. *)
Theorem status_ignores_other_sources (model : option Model) (d : IngestData) (w : World) :
  monitored (source_id d) = false ->
  fst (get_status model (snd (post_ingest_data d w))) = fst (get_status model w).
Proof.
  unfold monitored. intros Hm. apply orb_false_elim in Hm. destruct Hm as [H1 H2].
  apply String.eqb_neq in H1, H2.
  rewrite post_ingest_data_run, process_new_data_run. cbn [snd].
  unfold get_status. apply get_system_status_agree;
    unfold latest_count, window; cbn [clock current_counts density_history];
    rewrite ?lookup_insert_ne by assumption; reflexivity.
Qed.

(** X5 at work: a reading of a third camera after scenario B. *)
Lemma status_ignores_other_sources_witness :
  fst (get_status None (snd (post_ingest_data (reading "cam_03" 500) (scenario_b still_clock))))
  = fst (get_status None (scenario_b still_clock)).
Proof.
  apply (status_ignores_other_sources None (reading "cam_03" 500)). reflexivity.
Defined.

(** X6. Read your write across the two endpoints: the ingest endpoint
    always answers ["ok"] with the source id of the request, and a status
    served right after a request for [cam_01] (for [cam_02]) reports for
    [gate_a] (for [stage_front]) the density [min(count / 200.0, 1.0)] of
    that very request and the risk class of that density, whatever the
    store held before. *)
Theorem status_shows_latest_reading (model : option Model) (d : IngestData) (w : World) :
  let posted := post_ingest_data d w in
  let shown := Py.min (Py.truediv_int (count (data d)) 200) 1 in
  fst posted = Ok (mkIngestAck "ok" (source_id d)) /\
  forall st, fst (get_status model (snd posted)) = Ok st ->
    exists gate_a stage_front,
      zones st = [gate_a; stage_front] /\
      (source_id d = "cam_01"%string ->
       density gate_a = shown /\ risk_level gate_a = get_risk shown) /\
      (source_id d = "cam_02"%string ->
       density stage_front = shown /\ risk_level stage_front = get_risk shown).
Proof.
  intros posted shown. unfold posted. rewrite post_ingest_data_run. cbn [fst snd].
  split; [reflexivity |].
  intros st. unfold get_status. rewrite get_system_status_run.
  destruct (cam_01_prediction _ _ _); [| discriminate].
  cbn [fst]. intros Hst. injection Hst as <-. cbn [zones].
  eexists _, _. split; [reflexivity |].
  cbn [density risk_level]. unfold source_density.
  rewrite process_new_data_run. cbn [snd current_counts].
  split; intros ->; rewrite lookup_insert_eq; split; reflexivity.
Qed.

(** X6 at work: a reading of 300 for [cam_01] after scenario B. *)
Lemma status_shows_latest_reading_witness :
  exists gate_a stage_front,
    zones after_300_status = [gate_a; stage_front] /\
    ("cam_01"%string = "cam_01"%string ->
     density gate_a = Py.min (Py.truediv_int 300 200) 1 /\
     risk_level gate_a = get_risk (Py.min (Py.truediv_int 300 200) 1)) /\
    ("cam_01"%string = "cam_02"%string ->
     density stage_front = Py.min (Py.truediv_int 300 200) 1 /\
     risk_level stage_front = get_risk (Py.min (Py.truediv_int 300 200) 1)).
Proof.
  apply (proj2 (status_shows_latest_reading None (reading "cam_01" 300)
                  (scenario_b still_clock)) after_300_status).
  vm_compute. reflexivity.
Defined.

(** ** The clock *)

Lemma alerts_timestamps (b1 b2 : bool) (rd : nat -> Z) (pos : nat) :
  let n1 := if b1 then 1%nat else 0%nat in
  let n2 := if b2 then 1%nat else 0%nat in
  let issued :=
    (if b1 then [gate_a_alert (rd pos)] else []) ++
    (if b2 then [stage_front_alert (rd (pos + n1)%nat)] else []) in
  length issued = (n1 + n2)%nat /\
  map alert_timestamp issued = map rd (seq pos (length issued)).
Proof.
  destruct b1, b2; cbn; rewrite ?Nat.add_0_r, ?Nat.add_1_r; split; reflexivity.
Qed.

(** X7. A status read takes one clock reading per alert and nothing else:
    the alerts carry, in order, the readings the clock gave from where it
    stood, the clock has moved on by the number of alerts, and a read whose
    prediction raises leaves the whole world, clock included, untouched. *)
Theorem status_clock_readings (model : option Model) (w : World) :
  match get_status model w with
  | (Ok st, w') =>
      readings (clock w') = readings (clock w) /\
      position (clock w') = (position (clock w) + length (alerts st))%nat /\
      map alert_timestamp (alerts st) =
        map (readings (clock w)) (seq (position (clock w)) (length (alerts st)))
  | (Raise _, w') => w' = w
  end.
Proof.
  unfold get_status. rewrite get_system_status_run.
  destruct (cam_01_prediction _ _ _); [| reflexivity].
  cbn [alerts clock advance readings position].
  destruct (alerts_timestamps (is_high (get_risk (source_density w "cam_01")))
              (is_high (get_risk (source_density w "cam_02")))
              (readings (clock w)) (position (clock w))) as [Hlen Hts].
  cbv zeta in Hlen, Hts. rewrite Hlen in Hts |- *. rewrite Hts.
  repeat split; reflexivity.
Qed.

(** ** Warm-up *)

Lemma window_fresh (source : string) (ds : list IngestData) (c : Clock) :
  window (ingest_all ds (initial_world c)) source =
    Py.slice_last MAX_HISTORY (counts_for source ds).
Proof.
  rewrite ingest_all_interleaved.
  replace (window (initial_world c) source) with (@nil Z)
    by (unfold window; simpl; rewrite lookup_empty; reflexivity).
  destruct (counts_for source ds); reflexivity.
Qed.

(** X8. From a fresh store the window of a source has as many entries as
    the source has sent requests, up to 10; so until a source has sent its
    third request its trend is ["stable"] and its trend-based prediction is
    ["low"], however high the counts it sent. *)
Theorem warm_up (source : string) (ds : list IngestData) (c : Clock) (density0 : float) :
  let w := ingest_all ds (initial_world c) in
  length (window w source) = Nat.min MAX_HISTORY (length (counts_for source ds)) /\
  ((length (counts_for source ds) < 3)%nat ->
   get_trend source w = (Ok "stable"%string, w) /\
   predict_future_risk None source density0 w = (Ok "low"%string, w)).
Proof.
  intros w. unfold w. rewrite window_fresh, slice_last_length.
  split; [reflexivity |]. intros Hlen.
  rewrite get_trend_run, predict_trend_branch by reflexivity.
  unfold trend_label, trend_prediction.
  rewrite window_fresh, slice_last_length.
  replace (Nat.min MAX_HISTORY (length (counts_for source ds)) <? 3)%nat with true
    by (symmetry; apply Nat.ltb_lt; unfold MAX_HISTORY; lia).
  split; reflexivity.
Qed.

(** X8 at work: two readings of 300 for [cam_01]. *)
Lemma warm_up_witness :
  let w := ingest_all [reading "cam_01" 300; reading "cam_01" 300] (initial_world still_clock) in
  get_trend "cam_01" w = (Ok "stable"%string, w) /\
  predict_future_risk None "cam_01" 1 w = (Ok "low"%string, w).
Proof.
  apply (proj2 (warm_up "cam_01" [reading "cam_01" 300; reading "cam_01" 300] still_clock 1)).
  vm_compute. lia.
Defined.

(** ** Thresholds in terms of counts *)

Lemma Z_range_In (lo : Z) (n : nat) (z : Z) :
  lo <= z < lo + Z.of_nat n -> In z (Z_range lo n).
Proof.
  revert lo. induction n as [|n IH]; intros lo Hz; [lia |].
  cbn [Z_range]. destruct (Z.eq_dec lo z) as [-> | Hne]; [left; reflexivity |].
  right. apply IH. lia.
Qed.

Lemma Z_range_forallb (P : Z -> bool) (lo : Z) (n : nat) :
  forallb P (Z_range lo n) = true ->
  forall z, lo <= z < lo + Z.of_nat n -> P z = true.
Proof.
  intros H z Hz. rewrite forallb_forall in H. apply H, Z_range_In, Hz.
Qed.

Lemma risk_table : forallb risk_table_ok (Z_range (-20000) 40001) = true.
Proof. vm_compute. reflexivity. Qed.

Lemma risk_table_all (c : Z) : -20000 <= c <= 20000 -> risk_table_ok c = true.
Proof.
  intros Hc. apply (Z_range_forallb _ _ _ risk_table).
  replace (Z.of_nat 40001) with 40001 by (vm_compute; reflexivity). lia.
Qed.

Lemma density_table : forallb density_table_ok (Z_range (-20000) 40001) = true.
Proof. vm_compute. reflexivity. Qed.

Lemma density_table_all (c : Z) : -20000 <= c <= 20000 -> density_table_ok c = true.
Proof.
  intros Hc. apply (Z_range_forallb _ _ _ density_table).
  replace (Z.of_nat 40001) with 40001 by (vm_compute; reflexivity). lia.
Qed.

Lemma trend_table : forallb (trend_row_ok (-220) 441) (Z_range (-220) 441) = true.
Proof. vm_compute. reflexivity. Qed.

Lemma trend_table_all (d1 d2 : Z) :
  -220 <= d1 <= 220 -> -220 <= d2 <= 220 ->
  delta_label (trend_delta 0 d1 (d1 + d2)) = trend_by_counts (d1 + d2).
Proof.
  intros H1 H2.
  pose proof (Z_range_forallb _ _ _ trend_table d1 ltac:(lia)) as Hrow.
  unfold trend_row_ok in Hrow.
  pose proof (Z_range_forallb _ _ _ Hrow d2 ltac:(lia)) as Hcell.
  apply String.eqb_eq in Hcell. exact Hcell.
Qed.

(** X9. For every latest count between -20000 and 20000 the current risk
    is ["high"] exactly above 160, ["medium"] from 101 to 160 and ["low"]
    up to 100: the counts 100 and 160 themselves stay in the lower class,
    and a negative count is ["low"]. *)
Theorem risk_thresholds_in_counts (w : World) (source : string) :
  -20000 <= latest_count w source <= 20000 ->
  get_risk (source_density w source) = risk_by_count (latest_count w source).
Proof.
  intros Hc. apply String.eqb_eq. apply (risk_table_all (latest_count w source) Hc).
Qed.

(** X9 at work after scenario B, where the latest count is 260. *)
Lemma risk_thresholds_in_counts_witness :
  get_risk (source_density (scenario_b still_clock) "cam_01") = "high"%string.
Proof.
  apply (risk_thresholds_in_counts (scenario_b still_clock) "cam_01").
  vm_compute. split; discriminate.
Defined.

(** X10. For every latest count from 0 to 20000 the reported density lies
    in [0, 1] and is 1.0 exactly when the count is at least 200; for a
    negative count (down to -20000), which the request schema admits, the
    reported density is negative. *)
Theorem density_range_in_counts (w : World) (source : string) :
  let c := latest_count w source in
  let d := source_density w source in
  (0 <= c <= 20000 ->
   (0 <=? d)%float = true /\ (d <=? 1)%float = true /\
   ((d =? 1)%float = true <-> 200 <= c)) /\
  (-20000 <= c < 0 -> (d <? 0)%float = true).
Proof.
  intros c d.
  assert (Hd : d = density_of_count c) by reflexivity.
  split; intros Hc.
  - pose proof (density_table_all c ltac:(lia)) as H.
    unfold density_table_ok in H. cbv zeta in H. rewrite <- Hd in H.
    destruct (Z.ltb_spec c 0); [lia |].
    apply andb_prop in H. destruct H as [H H3].
    apply andb_prop in H. destruct H as [H1 H2].
    apply Bool.eqb_prop in H3.
    split; [exact H1 |]. split; [exact H2 |].
    rewrite H3. apply Z.leb_le.
  - pose proof (density_table_all c ltac:(lia)) as H.
    unfold density_table_ok in H. cbv zeta in H. rewrite <- Hd in H.
    destruct (Z.ltb_spec c 0); [exact H | lia].
Qed.

(** X10 at work on a negative reading. *)
Lemma density_range_in_counts_witness :
  (source_density (ingest_all [reading "cam_01" (-50)] (initial_world still_clock)) "cam_01" <? 0)%float
  = true.
Proof.
  apply (proj2 (density_range_in_counts
                  (ingest_all [reading "cam_01" (-50)] (initial_world still_clock)) "cam_01")).
  vm_compute. split; [discriminate | reflexivity].
Defined.

(** X11. When the last three entries [a; b; c] of a window are counts in
    range that move by at most 220 per step, the trend is decided by the
    net change [c - a] alone: ["up"] above 4, ["down"] below -4,
    ["stable"] otherwise; the middle entry plays no role. *)
Theorem trend_thresholds_in_counts (source : string) (w : World) (pre : list Z) (a b c : Z) :
  window w source = pre ++ [a; b; c] ->
  Forall count_in_range [a; b; c] ->
  -220 <= b - a <= 220 ->
  -220 <= c - b <= 220 ->
  get_trend source w = (Ok (trend_by_counts (c - a)), w).
Proof.
  intros Hw _ Hab Hbc. rewrite get_trend_run. unfold trend_label.
  rewrite Hw, length_app. cbn [length].
  replace (length pre + 3 <? 3)%nat with false by (symmetry; apply Nat.ltb_ge; lia).
  rewrite slice_last_3, mean_diff_3. cbv zeta.
  pose proof (trend_table_all (b - a) (c - b) Hab Hbc) as Hcell.
  assert (Hdelta : trend_delta 0 (b - a) (b - a + (c - b)) = trend_delta a b c).
  { unfold trend_delta. rewrite Z.sub_0_r.
    replace (b - a + (c - b) - (b - a)) with (c - b) by lia. reflexivity. }
  rewrite Hdelta in Hcell.
  replace (b - a + (c - b)) with (c - a) in Hcell by lia.
  unfold delta_label in Hcell. rewrite Hcell. reflexivity.
Qed.

(** X11 at work after scenario B: the window ends in 150, 220, 260. *)
Lemma trend_thresholds_in_counts_witness :
  get_trend "cam_01" (scenario_b still_clock) = (Ok "up"%string, scenario_b still_clock).
Proof.
  apply (trend_thresholds_in_counts "cam_01" (scenario_b still_clock) [100] 150 220 260).
  - reflexivity.
  - repeat constructor; unfold count_in_range; vm_compute; try discriminate; reflexivity.
  - lia.
  - lia.
Defined.


(** * The dashboard *)

(** X12. One [update_trend] leaves the chart of the zone with the points
    it had followed by the new point, cut to the last 50; the chart is
    never empty afterwards and ends with the new point, and the charts of
    the other zones are untouched. *)
Theorem dashboard_history_bound (now zone : string) (d : float)
    (history : gmap string (list Dashboard.TrendPoint)) :
  let point := Dashboard.mkTrendPoint now d in
  let chart := Py.slice_last 50 (default [] (history !! zone) ++ [point]) in
  Dashboard.update_trend now zone d history !! zone = Some chart /\
  (1 <= length chart <= 50)%nat /\
  List.last chart point = point /\
  forall other, other <> zone ->
    Dashboard.update_trend now zone d history !! other = history !! other.
Proof.
  intros point chart.
  assert (Hrun : Dashboard.update_trend now zone d history = <[zone := chart]> history).
  { unfold Dashboard.update_trend, chart. fold point.
    destruct (history !! zone) as [h|] eqn:Hh.
    - rewrite bool_decide_eq_true_2 by eauto. rewrite Hh.
      rewrite lookup_insert_eq. cbn [from_option id].
      destruct (Dashboard.MAX_HISTORY <? length (h ++ [point]))%nat eqn:Hlen.
      + rewrite insert_insert_eq. reflexivity.
      + apply Nat.ltb_ge in Hlen. rewrite slice_last_short by exact Hlen. reflexivity.
    - rewrite bool_decide_eq_false_2 by (intros [? ?]; discriminate).
      rewrite lookup_insert_eq. cbn [from_option id app].
      rewrite lookup_insert_eq. cbn [from_option id].
      rewrite !insert_insert_eq. reflexivity. }
  rewrite Hrun. split; [apply lookup_insert_eq |].
  split.
  { unfold chart. rewrite slice_last_length, length_app. cbn [length]. lia. }
  split.
  { unfold chart. rewrite slice_last_app by (simpl; lia). apply last_last. }
  intros other Hne. apply lookup_insert_ne. congruence.
Qed.

(** X12 at work: the chart of another zone. *)
Lemma dashboard_history_bound_witness :
  let history := Dashboard.update_trend "11:59:58" "stage_front" 0.6 ∅ in
  Dashboard.update_trend "12:00:00" "gate_a" 0.5 history !! "stage_front"%string
  = history !! "stage_front"%string.
Proof.
  intros history.
  apply (proj2 (proj2 (proj2 (dashboard_history_bound "12:00:00" "gate_a" 0.5 history)))).
  discriminate.
Defined.

Lemma card_table : forallb card_table_ok (Z_range (-20000) 40001) = true.
Proof. vm_compute. reflexivity. Qed.

Lemma card_table_all (c : Z) : -20000 <= c <= 20000 -> card_table_ok c = true.
Proof.
  intros Hc. apply (Z_range_forallb _ _ _ card_table).
  replace (Z.of_nat 40001) with 40001 by (vm_compute; reflexivity). lia.
Qed.

(** X13. With the slider at its default of 80, for every latest count
    between -20000 and 20000 the zone card shows ["high"] from 160 on,
    ["medium"] from 81 to 159 and ["low"] up to 80; so the card and the
    backend's [risk_level] disagree exactly for the counts 81 to 100 (card
    medium, backend low) and for 160 (card high, backend medium). *)
Theorem card_risk_versus_backend (w : World) (source : string) :
  let c := latest_count w source in
  let d := source_density w source in
  -20000 <= c <= 20000 ->
  Dashboard.card_risk 80 d = card_by_count c /\
  (Dashboard.card_risk 80 d <> get_risk d <-> 80 < c <= 100 \/ c = 160).
Proof.
  intros c d Hc.
  assert (Hcard : Dashboard.card_risk 80 d = card_by_count c).
  { apply String.eqb_eq. exact (card_table_all c Hc). }
  assert (Hrisk : get_risk d = risk_by_count c).
  { apply String.eqb_eq. exact (risk_table_all c Hc). }
  split; [exact Hcard |].
  rewrite Hcard, Hrisk. unfold card_by_count, risk_by_count.
  destruct (Z.leb_spec 160 c), (Z.ltb_spec 80 c), (Z.ltb_spec 160 c), (Z.ltb_spec 100 c);
    split; intros Hside; try lia; try congruence; try discriminate.
Qed.

(** X13 at work after one reading of 160. *)
Lemma card_risk_versus_backend_witness :
  let w := ingest_all [reading "cam_01" 160] (initial_world still_clock) in
  Dashboard.card_risk 80 (source_density w "cam_01") = "high"%string.
Proof.
  apply (proj1 (card_risk_versus_backend
                  (ingest_all [reading "cam_01" 160] (initial_world still_clock)) "cam_01"
                  ltac:(vm_compute; split; discriminate))).
Defined.

(** X14. Toasts follow the number of alerts only: after a refresh that saw
    some alerts, a refresh whose status has no more alerts than that one
    toasts nothing, even when its alerts are new ones. *)
Theorem toasts_need_more_alerts (served1 served2 : list Alert) (last_alert_count : Z) :
  (length served2 <= length served1)%nat ->
  fst (Dashboard.toast_step served2 (snd (Dashboard.toast_step served1 last_alert_count))) = [].
Proof.
  intros Hle. unfold Dashboard.toast_step. cbn [fst snd].
  destruct (Z.ltb_spec (Z.of_nat (length served1)) (Z.of_nat (length served2))); [lia |].
  reflexivity.
Qed.

(** X14 at work: the gate alert gives way to the stage alert. *)
Lemma toasts_need_more_alerts_witness :
  fst (Dashboard.toast_step [stage_front_alert 2]
         (snd (Dashboard.toast_step [gate_a_alert 1] 0))) = [].
Proof.
  apply (toasts_need_more_alerts [gate_a_alert 1] [stage_front_alert 2] 0).
  simpl. lia.
Defined.

(** * The simulator *)

Lemma randint_range (a b : Z) (g : Simulator.Rng) :
  a <= b -> a <= fst (Simulator.randint a b g) <= b.
Proof.
  intros Hab. unfold Simulator.randint. cbn [fst].
  pose proof (Z.mod_pos_bound (Simulator.draws g (Simulator.drawn g)) (b - a + 1)
                ltac:(lia)). lia.
Qed.

Lemma SFleb_SFltb_trans (x y z : spec_float) :
  SFleb x y = true -> SFltb y z = true -> SFltb x z = true.
Proof.
  unfold SFltb, SFleb, SFcompare.
  destruct x as [sx|sx| |sx mx ex], y as [sy|sy| |sy my ey], z as [sz|sz| |sz mz ez];
    try destruct sx; try destruct sy; try destruct sz; simpl;
    try congruence; sf_cases.
Qed.

Lemma float_leb_ltb_trans (x y z : float) :
  (x <=? y)%float = true -> (y <? z)%float = true -> (x <? z)%float = true.
Proof. rewrite !FloatAxioms.ltb_spec, FloatAxioms.leb_spec. apply SFleb_SFltb_trans. Qed.

(** The normal flow and the critical peak do not overlap. *)
Lemma phases_apart (t : float) : normal_flow t = true -> critical_peak t = false.
Proof.
  unfold normal_flow, critical_peak. intros H. apply andb_prop in H. destruct H as [_ H30].
  destruct (60 <=? t)%float eqn:H60; [| reflexivity].
  pose proof (float_leb_ltb_trans _ _ _ H60 H30) as Habs.
  vm_compute in Habs. discriminate Habs.
Qed.

(** Nor do the surge and the critical peak. *)
Lemma surge_peak_apart (t : float) : surge t = true -> critical_peak t = false.
Proof.
  unfold surge, critical_peak. intros H. apply andb_prop in H. destruct H as [_ H60'].
  destruct (60 <=? t)%float eqn:H60; [| reflexivity].
  pose proof (float_leb_ltb_trans _ _ _ H60 H60') as Habs.
  vm_compute in Habs. discriminate Habs.
Qed.

Ltac stage_draw g1 :=
  let Hs := fresh "Hs" in
  pose proof (randint_range 110 130 g1 ltac:(lia)) as Hs;
  destruct (Simulator.randint 110 130 g1) as [? ?];
  let H := fresh "H" in
  intros H; injection H as <- _; cbn [fst snd] in *.

(** The counts of a turn, phase by phase. *)
Lemma get_crowd_count_ranges (t : float) (g g' : Simulator.Rng) (counts : Z * Z) :
  Simulator.get_crowd_count t g = (inr counts, g') ->
  110 <= snd counts <= 130 /\
  (normal_flow t = true -> 80 <= fst counts <= 100) /\
  (critical_peak t = true -> 250 <= fst counts <= 300) /\
  (normal_flow t = false -> surge t = false -> critical_peak t = false ->
   150 <= fst counts).
Proof.
  pose proof (phases_apart t) as Hapart.
  unfold Simulator.get_crowd_count.
  fold (normal_flow t) (surge t) (critical_peak t).
  destruct (normal_flow t) eqn:H1;
    [| destruct (surge t) eqn:H2; [| destruct (critical_peak t) eqn:H3]].
  - rewrite (Hapart eq_refl).
    pose proof (randint_range 80 100 g ltac:(lia)) as Hr.
    destruct (Simulator.randint 80 100 g) as [r g1]. stage_draw g1.
    repeat split; try discriminate; lia.
  - rewrite (surge_peak_apart t H2).
    destruct (Simulator.int_of_float _) as [e|n]; [discriminate |].
    destruct (Simulator.randint (-10) 10 g) as [r g1]. stage_draw g1.
    repeat split; try discriminate; lia.
  - pose proof (randint_range 250 300 g ltac:(lia)) as Hr.
    destruct (Simulator.randint 250 300 g) as [r g1]. stage_draw g1.
    repeat split; try discriminate; lia.
  - destruct (Simulator.int_of_float _) as [e|n]; [discriminate |].
    destruct (Simulator.randint (-10) 10 g) as [r g1]. stage_draw g1.
    repeat split; try discriminate; lia.
Qed.

(** X15. A turn of the simulator that returns has drawn exactly twice and
    sends for [cam_02] a count from 110 to 130; for [cam_01] it sends 80 to
    100 during the normal flow (time in [0, 30)), 250 to 300 during the
    critical peak (time in [60, 90)), and at least 150 outside the first
    three phases.  In the normal flow and in the critical peak it always
    returns; on a NaN time it raises [ValueError] before any draw. *)
Theorem simulated_counts (t : float) (g : Simulator.Rng) :
  (forall counts g',
      Simulator.get_crowd_count t g = (inr counts, g') ->
      Simulator.drawn g' = S (S (Simulator.drawn g)) /\
      110 <= snd counts <= 130 /\
      (normal_flow t = true -> 80 <= fst counts <= 100) /\
      (critical_peak t = true -> 250 <= fst counts <= 300) /\
      (normal_flow t = false -> surge t = false -> critical_peak t = false ->
       150 <= fst counts)) /\
  (normal_flow t = true \/ critical_peak t = true ->
   exists counts g', Simulator.get_crowd_count t g = (inr counts, g')) /\
  Simulator.get_crowd_count nan g = (inl Simulator.ValueError, g).
Proof.
  split; [| split].
  - intros counts g' Hrun. split; [| exact (get_crowd_count_ranges t g g' counts Hrun)].
    revert Hrun. unfold Simulator.get_crowd_count, Simulator.randint.
    repeat match goal with
           | |- context [if ?b then _ else _] => destruct b
           | |- context [match Simulator.int_of_float ?f with _ => _ end] =>
               destruct (Simulator.int_of_float f)
           end;
      cbn; intros H; try discriminate H; injection H as _ <-; reflexivity.
  - intros Hphase. pose proof (phases_apart t) as Hapart.
    unfold Simulator.get_crowd_count.
    fold (normal_flow t) (surge t) (critical_peak t).
    destruct (normal_flow t) eqn:H1.
    + destruct (Simulator.randint 80 100 g) as [r g1].
      destruct (Simulator.randint 110 130 g1) as [r2 g2]. eauto.
    + destruct Hphase as [Habs | Hpeak]; [discriminate |].
      destruct (surge t) eqn:H2.
      * rewrite (surge_peak_apart t H2) in Hpeak. discriminate.
      * rewrite Hpeak.
        destruct (Simulator.randint 250 300 g) as [r g1].
        destruct (Simulator.randint 110 130 g1) as [r2 g2]. eauto.
  - reflexivity.
Qed.

(** X15 at work at second 70, in the critical peak. *)
Lemma simulated_counts_witness :
  250 <= fst (250, 111) <= 300.
Proof.
  apply (proj1 (simulated_counts 70 counting_rng) (250, 111)
           (Simulator.mkRng (fun n => Z.of_nat n) 2)).
  - vm_compute. reflexivity.
  - vm_compute. reflexivity.
Defined.

Lemma Ok_inj {A : Type} (a b : A) : Ok a = Ok b -> a = b.
Proof. intros H. injection H as H. exact H. Qed.

Lemma deliver_latest (counts : Z * Z) (now : Z) (w : World) :
  latest_count (Simulator.deliver counts now w) "cam_01" = fst counts /\
  latest_count (Simulator.deliver counts now w) "cam_02" = snd counts.
Proof.
  unfold Simulator.deliver, latest_count.
  rewrite !post_ingest_data_run, !process_new_data_run.
  cbn [snd current_counts Simulator.payload source_id data count].
  split.
  - rewrite lookup_insert_ne by discriminate. rewrite lookup_insert_eq. reflexivity.
  - rewrite lookup_insert_eq. reflexivity.
Qed.

(** X16. The demo story, end to end: when the two posts of a simulator
    turn reach the backend, the status served next shows [stage_front] at
    ["medium"] risk and never alerts for it, shows [gate_a] at ["low"] in
    the normal flow and at ["high"] in the critical peak, and carries the
    [gate_a] alert exactly when [gate_a] is ["high"]; all of it whatever
    the store held before. *)
Theorem demo_story (model : option Model) (t : float) (g g' : Simulator.Rng)
    (counts : Z * Z) (now : Z) (w : World) (st : SystemStatus) :
  Simulator.get_crowd_count t g = (inr counts, g') ->
  fst (get_status model (Simulator.deliver counts now w)) = Ok st ->
  exists gate_a stage_front,
    zones st = [gate_a; stage_front] /\
    risk_level stage_front = "medium"%string /\
    map alert_zone_id (alerts st) =
      (if is_high (risk_level gate_a) then ["gate_a"%string] else []) /\
    (normal_flow t = true -> risk_level gate_a = "low"%string) /\
    (critical_peak t = true -> risk_level gate_a = "high"%string).
Proof.
  intros Hrun.
  destruct (get_crowd_count_ranges t g g' counts Hrun) as (Hstage & Hnormal & Hpeak & _).
  destruct (deliver_latest counts now w) as [Hgate_c Hstage_c].
  set (w2 := Simulator.deliver counts now w) in *.
  unfold get_status. rewrite get_system_status_run.
  destruct (cam_01_prediction _ _ _); [| discriminate].
  cbn [fst]. intros Hst. apply Ok_inj in Hst. subst st. cbn [zones alerts].
  eexists _, _. split; [reflexivity |]. cbn [risk_level].
  assert (Hs : get_risk (source_density w2 "cam_02") = "medium"%string).
  { change (source_density w2 "cam_02") with (density_of_count (latest_count w2 "cam_02")).
    rewrite Hstage_c.
    rewrite (proj1 (String.eqb_eq _ _) (risk_table_all (snd counts) ltac:(lia))).
    unfold risk_by_count.
    destruct (Z.ltb_spec 160 (snd counts)), (Z.ltb_spec 100 (snd counts)); try lia.
    reflexivity. }
  assert (Hg : forall lo hi, lo <= fst counts <= hi -> -20000 <= lo -> hi <= 20000 ->
               get_risk (source_density w2 "cam_01") = risk_by_count (fst counts)).
  { intros lo hi Hin Hlo Hhi.
    change (source_density w2 "cam_01") with (density_of_count (latest_count w2 "cam_01")).
    rewrite Hgate_c. apply String.eqb_eq, risk_table_all. lia. }
  rewrite Hs. split; [reflexivity |]. split.
  { cbn [is_high String.eqb]. change (is_high "medium") with false.
    destruct (is_high (get_risk (source_density w2 "cam_01"))); reflexivity. }
  split.
  - intros Hn. specialize (Hnormal Hn). rewrite (Hg 80 100) by lia.
    unfold risk_by_count.
    destruct (Z.ltb_spec 160 (fst counts)), (Z.ltb_spec 100 (fst counts)); try lia.
    reflexivity.
  - intros Hp. specialize (Hpeak Hp). rewrite (Hg 250 300) by lia.
    unfold risk_by_count.
    destruct (Z.ltb_spec 160 (fst counts)); try lia. reflexivity.
Qed.

(** X16 at work at second 70 on a fresh store. *)
Lemma demo_story_witness :
  exists gate_a stage_front,
    zones peak_status = [gate_a; stage_front] /\
    risk_level stage_front = "medium"%string /\
    map alert_zone_id (alerts peak_status) =
      (if is_high (risk_level gate_a) then ["gate_a"%string] else []) /\
    (normal_flow 70 = true -> risk_level gate_a = "low"%string) /\
    (critical_peak 70 = true -> risk_level gate_a = "high"%string).
Proof.
  apply (demo_story None 70 counting_rng (Simulator.mkRng (fun n => Z.of_nat n) 2)
           (250, 111) 0 (initial_world still_clock) peak_status).
  - vm_compute. reflexivity.
  - vm_compute. reflexivity.
Defined.
